(** * PandasSchema: the validation rules of [pandas_schema/validation.py]

    A shallow embedding of the rule classes ([SeriesValidation] and its
    subclasses), of the part of pandas they call, and of
    [SeriesValidation.get_errors], followed by the properties of the rule
    engine.

    Conventions of the embedding:
    - a Python call that may raise returns a [result]; [Err e] is the
      exception propagating out of the call;
    - cells are [scalar]s: [None], numbers and text.  Finite numbers are
      integers; the two float infinities and [nan] are kept because the
      range rule defaults to them and pandas uses [nan] for missing data;
    - a [Series] is its name and its rows, each row a label of the index
      with the cell stored under it, in order;
    - a boolean Series obtained from a column is a [mask]: the list of its
      booleans in row order.

    [IsDtypeValidation], which inspects the dtype of a column and is not a
    [SeriesValidation], and [ValidationWarning.__str__] are embedded after
    the rules; numpy's dtypes and the text of a Series are parameters
    there. *)

From stdpp Require Import base list strings pretty numbers.

(** ** Python values and exceptions *)

Inductive number : Type :=
  | NegInf
  | Num (z : Z)
  | PosInf
  | NaN.

Inductive scalar : Type :=
  | PyNone
  | PyNum (n : number)
  | PyStr (s : string).

Inductive exn : Type :=
  | ValueError
  | TypeError
  | AttributeError
  | IndexError
  | KeyError
  | PanSchArgumentError (msg : string)
  | Raised (what : string).

Inductive result (A : Type) : Type :=
  | OK (a : A)
  | Err (e : exn).
Arguments OK {A} a.
Arguments Err {A} e.

#[global] Instance number_eq_dec : EqDecision number.
Proof. solve_decision. Defined.
#[global] Instance scalar_eq_dec : EqDecision scalar.
Proof. solve_decision. Defined.

#[global] Instance result_ret : MRet result := λ A a, OK a.
#[global] Instance result_bind : MBind result :=
  λ A B f m, match m with OK a => f a | Err e => Err e end.
#[global] Instance result_fmap : FMap result :=
  λ A B f m, match m with OK a => OK (f a) | Err e => Err e end.

Definition is_ok {A} (m : result A) : bool :=
  match m with OK _ => true | Err _ => false end.

(** The double quote character, for messages that quote a value. *)
Definition dquote : string := String (Ascii.ascii_of_nat 34) EmptyString.

(** [str(n)] and ['{}'.format(n)] of a number. *)
Definition format_number (n : number) : string :=
  match n with
  | NegInf => "-inf"
  | Num z => pretty z
  | PosInf => "inf"
  | NaN => "nan"
  end.

(** ['{}'.format(v)], also what [astype(unicode)] stores for a cell. *)
Definition py_str (v : scalar) : string :=
  match v with
  | PyNone => "None"
  | PyNum n => format_number n
  | PyStr s => s
  end.

(** Truth value of a scalar, as used by [or]. *)
Definition truthy (v : scalar) : bool :=
  match v with
  | PyNone => false
  | PyNum (Num z) => negb (z =? 0)%Z
  | PyNum _ => true
  | PyStr s => negb (String.eqb s "")
  end.

(** [a or b]: [b] is evaluated only when [a] is falsy, so only then can its
    exception escape. *)
Definition py_or (a : scalar) (b : result scalar) : result scalar :=
  if truthy a then OK a else b.

(** [a + b] where [b] is a text literal. *)
Definition add_str (a : scalar) (b : string) : result scalar :=
  match a with
  | PyStr s => OK (PyStr (s +:+ b))
  | _ => Err TypeError
  end.

(** Comparisons of numbers; a comparison with [nan] is false. *)
Definition num_le (a b : number) : bool :=
  match a, b with
  | NaN, _ | _, NaN => false
  | NegInf, _ | _, PosInf => true
  | Num x, Num y => bool_decide (x ≤ y)%Z
  | _, _ => false
  end.

Definition num_lt (a b : number) : bool :=
  match a, b with
  | NaN, _ | _, NaN => false
  | PosInf, _ | _, NegInf => false
  | NegInf, _ | _, PosInf => true
  | Num x, Num y => bool_decide (x < y)%Z
  end.

(** ASCII lower-casing, for [unicode.lower]. *)
Definition lower_ascii (c : Ascii.ascii) : Ascii.ascii :=
  let n := Ascii.nat_of_ascii c in
  if bool_decide (65 ≤ n ≤ 90)%nat then Ascii.ascii_of_nat (n + 32) else c.

Fixpoint lower (s : string) : string :=
  match s with
  | EmptyString => EmptyString
  | String c t => String (lower_ascii c) (lower t)
  end.

(** [sep.join(items)]: every item must be text. *)
Fixpoint join (sep : string) (items : list scalar) : result string :=
  match items with
  | [] => OK ""
  | [PyStr s] => OK s
  | PyStr s :: rest => t ← join sep rest; OK (s +:+ sep +:+ t)
  | _ :: _ => Err TypeError
  end.

(** ** Python objects passed as callables *)

(** What a call returns is dropped by the rules below, so a callable is
    modelled by its outcome on each argument; [text] is what
    ['{}'.format] prints for the object. *)
Inductive pyobj : Type :=
  | Data (v : scalar)
  | Function (text : string) (body : scalar → result unit)
  | Class (text : string) (new : scalar → result unit).

Definition callable (o : pyobj) : bool :=
  match o with
  | Data _ => false
  | Function _ _ | Class _ _ => true
  end.

(** [isinstance(o, type)] *)
Definition isinstance_type (o : pyobj) : bool :=
  match o with
  | Class _ _ => true
  | _ => false
  end.

Definition obj_str (o : pyobj) : string :=
  match o with
  | Data v => py_str v
  | Function text _ | Class text _ => text
  end.

(** [o(arg)]; calling an object that is not callable raises [TypeError]. *)
Definition call (o : pyobj) (arg : scalar) : result unit :=
  match o with
  | Data _ => Err TypeError
  | Function _ body => body arg
  | Class _ new => new arg
  end.

(** The builtin [type]; with one argument it returns the argument's class. *)
Definition builtin_type : pyobj := Class "<type 'type'>" (λ _, OK tt).

(** ** The part of pandas used by the rules *)

Record Series : Type := mkSeries {
  name : scalar;
  rows : list (scalar * scalar)
}.

Definition index (series : Series) : list scalar := (rows series).*1.
Definition values (series : Series) : list scalar := (rows series).*2.

(** [pd.Series(data, name=name)]: the default index numbers the rows from 0. *)
Definition pd_Series (data : list scalar) (name : scalar) : Series :=
  mkSeries name (imap (λ i v, (PyNum (Num (Z.of_nat i)), v)) data).

Abbreviation mask := (list bool).

(** [~m] *)
Definition mask_not (m : mask) : mask := negb <$> m.

(** [a & b] and [a | b] on boolean data of one length; operands of
    different lengths are an error. *)
Definition mask_zip (f : bool → bool → bool) (a b : mask) : result mask :=
  if decide (length a = length b) then OK (zip_with f a b) else Err ValueError.

Definition mask_and : mask → mask → result mask := mask_zip andb.
Definition mask_or : mask → mask → result mask := mask_zip orb.

(** [series.apply(f)]: [f] is called on the cells in order; its first
    exception ends the call. *)
Definition apply {B} (f : scalar → result B) (series : Series) : result (list B) :=
  mapM f (values series).

(** [series.astype(unicode)] *)
Definition astype_unicode (series : Series) : list string :=
  py_str <$> values series.

(** [series.unicode.len()].  A Series has no attribute [unicode] (its
    string accessor is [str]), so reading it raises [AttributeError].  Should
    the index hold the label ["unicode"], pandas returns what is stored
    under it, which has no method [len] either: the outcome is the same. *)
Definition unicode_len (series : Series) : result (list number) :=
  Err AttributeError.

(** [series.unicode.lower()], then its attribute [isin]: again there is no
    attribute [unicode]; and when the index holds that label, lower-casing
    the text cell found under it gives a text, which has no [isin]. *)
Definition unicode_lower (series : Series) : result (list scalar) :=
  Err AttributeError.

(** [xs > k], [xs >= k], [xs < k] on numeric data. *)
Definition gt (xs : list number) (k : number) : mask := (λ x, num_lt k x) <$> xs.
Definition ge (xs : list number) (k : number) : mask := (λ x, num_le k x) <$> xs.
Definition lt (xs : list number) (k : number) : mask := (λ x, num_lt x k) <$> xs.

(** [xs.isin(options)] *)
Definition isin (xs : list scalar) (options : list scalar) : mask :=
  (λ x, bool_decide (x ∈ options)) <$> xs.

(** [index[m]]: the labels at the positions where the boolean mask is true. *)
Definition index_getitem (idx : list scalar) (m : mask) : result (list scalar) :=
  if decide (length idx = length m)
  then OK ((filter (λ p, p.2 = true) (zip idx m)).*1)
  else Err IndexError.

(** [series[i]] for a label [i]: the cell stored under the label, or all
    the rows carrying it when the label is not unique. *)
Inductive item : Type :=
  | Item (v : scalar)
  | Items (s : Series).

Definition getitem (series : Series) (i : scalar) : result item :=
  match filter (λ r, r.1 = i) (rows series) with
  | [] => Err KeyError
  | [r] => OK (Item r.2)
  | rs => OK (Items (mkSeries (name series) rs))
  end.

(** ** What the rules need from outside the module *)

(** The text parser of [pd.to_numeric], the regular expressions behind
    [Series.str.contains] and [datetime.datetime.strptime]. *)
Class Runtime : Type := {
  (** the number a text cell stands for, [None] when it cannot be parsed *)
  text_to_number : string → option number;
  (** [str.contains(pattern, **options)]: compiling the pattern may raise;
      the compiled pattern is then searched in each cell *)
  str_contains : string → list (string * scalar) → result (string → bool);
  (** [strptime(val, date_format)] returns or raises *)
  strptime : string → string → result unit
}.

(** [pd.to_numeric(series)]: numbers are kept, missing cells are [nan],
    text is parsed, and text that cannot be parsed raises. *)
Definition to_numeric_cell `{Runtime} (v : scalar) : result number :=
  match v with
  | PyNone => OK NaN
  | PyNum n => OK n
  | PyStr s =>
      match text_to_number s with
      | Some n => OK n
      | None => Err ValueError
      end
  end.

Definition to_numeric `{Runtime} (series : Series) : result (list number) :=
  mapM to_numeric_cell (values series).

(** ** The warning record ([validation_warning.py]) *)

Module ValidationWarning.
Record t : Type := mk {
  message : scalar;
  value : item;
  row : scalar;
  column : scalar
}.
End ValidationWarning.

(** ** The rules *)

(** [column.allow_empty] is all that [get_errors] reads of the column. *)
Record Column : Type := mkColumn {
  allow_empty : bool
}.

(** [operator.or_] and [operator.and_], the functions that [__or__] and
    [__and__] store in a combined rule. *)
Inductive binop : Type :=
  | or_
  | and_.

(** A constructed rule object: its class and its attributes.  Every class
    stores the [message] keyword as [_custom_message] ([None] when it is
    not given), except [_CombinedValidation], which passes none on. *)
Inductive SeriesValidation : Type :=
  | Inverse (negated : SeriesValidation) (custom : scalar)
  | Combined (v_a v_b : SeriesValidation) (operator : binop)
  | CustomSeries (_validation : Series → result mask) (custom : scalar)
  | CustomElement (_validation : scalar → result bool) (custom : scalar)
  | InRange (min max : number) (custom : scalar)
  | CanCall (func : pyobj) (custom : scalar)
  | CanConvert (func : pyobj) (custom : scalar)
  | MatchesPattern (pattern : string) (options : list (string * scalar))
      (custom : scalar)
  | TrailingWhitespace (custom : scalar)
  | LeadingWhitespace (custom : scalar)
  | InList (options : list scalar) (case_sensitive : bool) (custom : scalar)
  | DateFormat (date_format : string) (custom : scalar).

(** *** Constructors *)

Definition InverseValidation (validation : SeriesValidation) (message : scalar)
  : SeriesValidation :=
  Inverse validation message.

Definition _CombinedValidation (validation_a validation_b : SeriesValidation)
    (operator : binop) : SeriesValidation :=
  Combined validation_a validation_b operator.

Definition __invert__ (self : SeriesValidation) : SeriesValidation :=
  InverseValidation self PyNone.

Definition __or__ (self other : SeriesValidation) : SeriesValidation :=
  _CombinedValidation self other or_.

Definition __and__ (self other : SeriesValidation) : SeriesValidation :=
  _CombinedValidation self other and_.

(** [InRangeValidation(min=..., max=..., message=...)]; an omitted bound is
    [-float('inf')], respectively [float('inf')]. *)
Definition InRangeValidation (min max : option number) (message : scalar)
  : SeriesValidation :=
  InRange (default NegInf min) (default PosInf max) message.

(** [CanCallValidation.__init__]: the attribute [callable] it sets, or the
    error it raises.  The test is on the builtin [type], as in the source. *)
Definition CanCallValidation__init__ (func : pyobj) : result pyobj :=
  if callable builtin_type then OK func
  else Err (PanSchArgumentError
              ("The object " +:+ dquote +:+ obj_str builtin_type +:+ dquote
               +:+ " passed to CanCallValidation is not callable!")).

Definition CanCallValidation (func : pyobj) (message : scalar)
  : result SeriesValidation :=
  c ← CanCallValidation__init__ func; OK (CanCall c message).

Definition CanConvertValidation (_type : pyobj) (message : scalar)
  : result SeriesValidation :=
  if isinstance_type _type
  then c ← CanCallValidation__init__ _type; OK (CanConvert c message)
  else Err (PanSchArgumentError (obj_str _type +:+ " is not a valid type")).

(** *** Messages *)

Definition _custom_message (self : SeriesValidation) : scalar :=
  match self with
  | Combined _ _ _ => PyNone
  | Inverse _ m | CustomSeries _ m | CustomElement _ m | InRange _ _ m
  | CanCall _ m | CanConvert _ m | MatchesPattern _ _ m
  | TrailingWhitespace m | LeadingWhitespace m | InList _ _ m
  | DateFormat _ m => m
  end.

(** ['{}'.format(op)] of the stored operator function. *)
Definition binop_str (op : binop) : string :=
  match op with
  | or_ => "<built-in function or_>"
  | and_ => "<built-in function and_>"
  end.

(** The [default_message] property of each class.  [CustomSeriesValidation]
    reads an attribute [negated] it does not have; [CustomElementValidation]
    defines none and inherits the body of the abstract property, which
    returns [None]. *)
Fixpoint default_message (self : SeriesValidation) : result scalar :=
  let message v := py_or (_custom_message v) (default_message v) in
  match self with
  | Inverse negated _ =>
      m ← message negated; add_str m " <negated>"
  | Combined v_a v_b operator =>
      a ← message v_a;
      b ← message v_b;
      OK (PyStr ("(" +:+ py_str a +:+ ") " +:+ binop_str operator
                 +:+ " (" +:+ py_str b +:+ ")"))
  | CustomSeries _ _ => Err AttributeError
  | CustomElement _ _ => OK PyNone
  | InRange min max _ =>
      OK (PyStr ("was not in the range [" +:+ format_number min +:+ ", "
                 +:+ format_number max +:+ ")"))
  | CanCall func _ =>
      OK (PyStr ("raised an exception when the callable " +:+ obj_str func
                 +:+ " was called on it"))
  | CanConvert func _ =>
      OK (PyStr ("cannot be converted to type " +:+ obj_str func))
  | MatchesPattern pattern _ _ =>
      OK (PyStr ("does not match the pattern " +:+ dquote +:+ pattern
                 +:+ dquote))
  | TrailingWhitespace _ => OK (PyStr "contains trailing whitespace")
  | LeadingWhitespace _ => OK (PyStr "contains leading whitespace")
  | InList options _ _ =>
      s ← join ", " options;
      OK (PyStr ("is not in the list of legal options (" +:+ s +:+ ")"))
  | DateFormat date_format _ =>
      OK (PyStr ("does not match the date format string " +:+ dquote
                 +:+ date_format +:+ dquote))
  end.

(** The [message] property: [self._custom_message or self.default_message]. *)
Definition message (self : SeriesValidation) : result scalar :=
  py_or (_custom_message self) (default_message self).

(** *** Masks *)

Definition binop_apply (op : binop) : mask → mask → result mask :=
  match op with
  | or_ => mask_or
  | and_ => mask_and
  end.

(** [CanCallValidation.can_call]: the bare [except] turns every exception
    of the call into [False]. *)
Definition can_call (func : pyobj) (var : scalar) : result bool :=
  match call func var with
  | OK _ => OK true
  | Err _ => OK false
  end.

(** [DateFormatValidation.valid_date] *)
Definition valid_date `{Runtime} (date_format : string) (val : string)
  : result bool :=
  match strptime val date_format with
  | OK _ => OK true
  | Err _ => OK false
  end.

(** [s.lower()] of one option of [InListValidation]. *)
Definition option_lower (o : scalar) : result scalar :=
  match o with
  | PyStr s => OK (PyStr (lower s))
  | _ => Err AttributeError
  end.

(** The [validate] method of each class. *)
Fixpoint validate `{Runtime} (self : SeriesValidation) (series : Series)
  : result mask :=
  match self with
  | Inverse negated _ =>
      m ← validate negated series; OK (mask_not m)
  | Combined v_a v_b operator =>
      a ← validate v_a series;
      b ← validate v_b series;
      binop_apply operator a b
  | CustomSeries _validation _ => _validation series
  | CustomElement _validation _ => apply _validation series
  | InRange min max _ =>
      numeric ← to_numeric series;
      mask_and (ge numeric min) (lt numeric max)
  | CanCall func _ | CanConvert func _ => apply (can_call func) series
  | MatchesPattern pattern options _ =>
      contains ← str_contains pattern options;
      OK (contains <$> astype_unicode series)
  | TrailingWhitespace _ =>
      contains ← str_contains "\s+$" [];
      OK (mask_not (contains <$> astype_unicode series))
  | LeadingWhitespace _ =>
      contains ← str_contains "^\s+" [];
      OK (mask_not (contains <$> astype_unicode series))
  | InList options case_sensitive _ =>
      if case_sensitive then OK (isin (values series) options)
      else
        cells ← unicode_lower series;
        lowered ← mapM option_lower options;
        OK (isin cells lowered)
  | DateFormat date_format _ =>
      mapM (valid_date date_format) (astype_unicode series)
  end.

(** *** [SeriesValidation.get_errors] *)

Definition get_errors `{Runtime} (self : SeriesValidation) (series : Series)
    (column : Column) : result (list ValidationWarning.t) :=
  m ← validate self series;
  let simple_validation := mask_not m in
  validated ←
    (if allow_empty column
     then lengths ← unicode_len series;
          mask_and (gt lengths (Num 0)) simple_validation
     else OK simple_validation);
  indices ← index_getitem (index series) validated;
  mapM (λ i,
          element ← getitem series i;
          msg ← message self;
          OK (ValidationWarning.mk msg element i (name series)))
       indices.

(** A runtime for closed examples: text cells hold decimal integers (the
    empty text is a missing number), and neither patterns nor dates are
    supported. *)
Definition digit_value (c : Ascii.ascii) : option Z :=
  let n := Ascii.nat_of_ascii c in
  if bool_decide (48 ≤ n ≤ 57)%nat then Some (Z.of_nat n - 48)%Z else None.

Fixpoint parse_digits (s : string) (acc : Z) : option Z :=
  match s with
  | EmptyString => Some acc
  | String c t => d ← digit_value c; parse_digits t (10 * acc + d)%Z
  end.

Definition parse_integer (s : string) : option number :=
  match s with
  | EmptyString => Some NaN
  | String c t =>
      if bool_decide (c = Ascii.ascii_of_nat 45) then
        match t with
        | EmptyString => None
        | _ => z ← parse_digits t 0%Z; Some (Num (- z))
        end
      else Num <$> parse_digits s 0%Z
  end.

Definition integer_runtime : Runtime := {|
  text_to_number := parse_integer;
  str_contains := λ _ _, Err (Raised "regular expressions are not available");
  strptime := λ _ _, Err (Raised "date parsing is not available")
|}.

(** ** Alignment of user-supplied functions *)

(** The whole-series functions supplied by the user inside a rule return,
    on [series], boolean data with one entry per row. *)
Fixpoint series_functions_aligned (self : SeriesValidation) (series : Series)
  : Prop :=
  match self with
  | Inverse negated _ => series_functions_aligned negated series
  | Combined v_a v_b _ =>
      series_functions_aligned v_a series ∧ series_functions_aligned v_b series
  | CustomSeries _validation _ =>
      ∀ m, _validation series = OK m → length m = length (rows series)
  | _ => True
  end.

(** ** Columns and rules used as examples *)

Definition letters : Series := pd_Series [PyStr "a"; PyStr ""; PyStr "b"] (PyStr "c").
Definition only_a : SeriesValidation := InList [PyStr "a"] true PyNone.
Definition numbers : Series :=
  pd_Series [PyNum (Num 5); PyNum (Num 15); PyNum (Num (-3))] (PyStr "n").
Definition with_text : Series :=
  pd_Series [PyNum (Num (-1)); PyNum (Num 5); PyNum (Num 10); PyStr "x"] (PyStr "n").
Definition zero_to_ten : SeriesValidation :=
  InRangeValidation (Some (Num 0)) (Some (Num 10)) PyNone.
Definition raises_on_3 : pyobj :=
  Function "<function f>"
    (λ v, if decide (v = PyNum (Num 3)) then Err (Raised "three") else OK tt).
Definition every_row : SeriesValidation :=
  CustomSeries (λ series, OK ((λ _, true) <$> values series)) (PyStr "failed").

(** ** Printing a warning ([ValidationWarning.__str__]) *)

Definition is_not_None (v : scalar) : bool :=
  match v with
  | PyNone => false
  | _ => true
  end.

Definition item_is_not_None (it : item) : bool :=
  match it with
  | Item v => is_not_None v
  | Items _ => true
  end.

Section printing.
(** ['{}'.format] of a Series, needed when the value of a warning is one. *)
Variable series_str : Series → string.

Definition item_str (it : item) : string :=
  match it with
  | Item v => py_str v
  | Items s => series_str s
  end.

(** [ValidationWarning.__str__]; the method must return text, so a message
    that is not text raises when it is returned as it is. *)
Definition __str__ (self : ValidationWarning.t) : result string :=
  if is_not_None (ValidationWarning.row self)
     && is_not_None (ValidationWarning.column self)
     && item_is_not_None (ValidationWarning.value self)
  then OK ("{row: " +:+ py_str (ValidationWarning.row self)
           +:+ ", column: " +:+ dquote
           +:+ py_str (ValidationWarning.column self) +:+ dquote
           +:+ "}: " +:+ dquote +:+ item_str (ValidationWarning.value self)
           +:+ dquote +:+ " " +:+ py_str (ValidationWarning.message self))
  else match ValidationWarning.message self with
       | PyStr s => OK s
       | _ => Err TypeError
       end.
End printing.

(** ** The dtype rule ([IsDtypeValidation]) *)

(** The dtypes of numpy: their subtype test [np.issubdtype] and their
    text. *)
Class Numpy : Type := {
  np_dtype : Type;
  issubdtype : np_dtype → np_dtype → bool;
  dtype_str : np_dtype → string
}.

(** A Series with its [dtype] attribute. *)
Record TypedSeries `{Numpy} : Type := mkTypedSeries {
  untyped : Series;
  dtype : np_dtype
}.

Inductive IsDtypeValidation `{Numpy} : Type :=
  | IsDtype (required : np_dtype).

(** [IsDtypeValidation.get_errors(series, column=None)]; the warning is
    built from the message alone, its other fields keep their default
    [None]. *)
Definition IsDtypeValidation_get_errors `{Numpy} (self : IsDtypeValidation)
    (series : TypedSeries) (column : option Column) : list ValidationWarning.t :=
  match self with
  | IsDtype required =>
      if negb (issubdtype (dtype series) required)
      then [ValidationWarning.mk
              (PyStr ("The column has a dtype of " +:+ dtype_str (dtype series)
                      +:+ " which is not a subclass of the required type "
                      +:+ dtype_str required))
              (Item PyNone) PyNone PyNone]
      else []
  end.

(** ** Further columns and rules used as examples *)

Definition is_15 : SeriesValidation := InList [PyNum (Num 15)] true PyNone.
Definition unnamed : Series :=
  pd_Series [PyNum (Num 5); PyNum (Num 15); PyNum (Num (-3))] PyNone.
Definition has_content (series : Series) : result mask :=
  OK ((λ v, bool_decide (v ≠ PyStr "")) <$> values series).
Definition not_empty : SeriesValidation := CustomSeries has_content (PyStr "").
Definition one_letter : Series := pd_Series [PyStr "a"] (PyStr "c").
Definition int_class : pyobj :=
  Class "<type 'int'>"
        (λ v, match v with PyNum (Num _) => OK tt | _ => Err ValueError end).
Definition show_series : Series → string := λ _, "<Series>".

(** Dtypes for closed examples: a dtype is its name, and only equal names
    are subtypes of each other. *)
Definition named_dtypes : Numpy := {|
  np_dtype := string;
  issubdtype := String.eqb;
  dtype_str := λ d, d
|}.

(** * Properties *)

(** ** The error monad *)

Lemma mapM_OK_Forall2 {A B} (f : A → result B) (l : list A) (k : list B) :
  mapM f l = OK k ↔ Forall2 (λ x y, f x = OK y) l k.
Proof.
  revert k. induction l as [|x l IH]; intros k; simpl.
  - split.
    + intros [= <-]. constructor.
    + intros Hk. inversion Hk. reflexivity.
  - split.
    + destruct (f x) as [y|e] eqn:Hx; simpl; [|discriminate].
      destruct (mapM f l) as [k'|e] eqn:Hl; simpl; [|discriminate].
      intros [= <-]. constructor; [assumption|]. by apply IH.
    + intros Hk. inversion Hk as [|? y ? k' Hy Hk']; subst.
      rewrite Hy. simpl. apply IH in Hk'. rewrite Hk'. reflexivity.
Qed.

Lemma mapM_OK_length {A B} (f : A → result B) (l : list A) (k : list B) :
  mapM f l = OK k → length k = length l.
Proof.
  intros Hk. apply mapM_OK_Forall2 in Hk. symmetry. by eapply Forall2_length.
Qed.

Lemma mapM_OK_fmap {A B} (f : A → result B) (g : A → B) (l : list A) :
  (∀ x, x ∈ l → f x = OK (g x)) → mapM f l = OK (g <$> l).
Proof.
  intros Hf. induction l as [|x l IH]; [reflexivity|].
  simpl. rewrite Hf by apply list_elem_of_here. simpl.
  rewrite IH; [reflexivity|].
  intros y Hy. apply Hf. by apply list_elem_of_further.
Qed.

Lemma mapM_is_OK {A B} (f : A → result B) (l : list A) :
  (∀ x, x ∈ l → ∃ y, f x = OK y) → ∃ k, mapM f l = OK k.
Proof.
  intros Hf. induction l as [|x l IH]; [by exists []|].
  destruct (Hf x) as [y Hy]; [apply list_elem_of_here|].
  destruct IH as [k Hk].
  { intros z Hz. apply Hf. by apply list_elem_of_further. }
  exists (y :: k). change (mapM f (x :: l)) with (y ← f x; k ← mapM f l; OK (y :: k)).
  by rewrite Hy, Hk.
Qed.

(** When every failure of [f] is the exception [e], one failing element
    makes the whole traversal raise [e]. *)
Lemma mapM_Err {A B} (f : A → result B) (l : list A) (x : A) (e : exn) :
  (∀ y e', f y = Err e' → e' = e) → x ∈ l → f x = Err e → mapM f l = Err e.
Proof.
  intros Honly Hin Hx. induction l as [|y l IH]; [by apply elem_of_nil in Hin|].
  simpl. destruct (f y) as [b|e'] eqn:Hy; simpl.
  - apply elem_of_cons in Hin as [->|Hin]; [congruence|].
    rewrite (IH Hin). reflexivity.
  - f_equal. by eapply Honly.
Qed.

Lemma mask_zip_OK (f : bool → bool → bool) (a b : mask) :
  length a = length b → mask_zip f a b = OK (zip_with f a b).
Proof. intros Hlen. unfold mask_zip. by rewrite decide_True. Qed.

Lemma mask_zip_inv (f : bool → bool → bool) (a b m : mask) :
  mask_zip f a b = OK m → length a = length b ∧ m = zip_with f a b.
Proof. unfold mask_zip. case_decide; [|discriminate]. by intros [= <-]. Qed.

Lemma length_mask_not (m : mask) : length (mask_not m) = length m.
Proof. unfold mask_not. apply length_fmap. Qed.

Lemma lookup_mask_not (m : mask) (i : nat) :
  mask_not m !! i = negb <$> m !! i.
Proof. unfold mask_not. apply list_lookup_fmap. Qed.

Lemma length_values (series : Series) :
  length (values series) = length (rows series).
Proof. unfold values. apply length_fmap. Qed.

Lemma length_index (series : Series) :
  length (index series) = length (rows series).
Proof. unfold index. apply length_fmap. Qed.

(** Inversion of a successful sequence of calls. *)
Lemma bind_OK_inv {A B} (m : result A) (f : A → result B) (b : B) :
  m ≫= f = OK b → ∃ a, m = OK a ∧ f a = OK b.
Proof. destruct m as [a|e]; simpl; [eauto|discriminate]. Qed.

Ltac inv_bind H :=
  let a := fresh "a" in
  let Ha := fresh "Ha" in
  apply bind_OK_inv in H as (a & Ha & H).

(** ** pandas accessors *)

Lemma elem_of_index_getitem (idx : list scalar) (m : mask) (labels : list scalar) :
  index_getitem idx m = OK labels →
  length idx = length m ∧
  ∀ k, k ∈ labels ↔ ∃ p, idx !! p = Some k ∧ m !! p = Some true.
Proof.
  unfold index_getitem. case_decide as Hlen; [|discriminate].
  intros [= <-]. split; [assumption|]. intros k.
  rewrite list_elem_of_fmap. split.
  - intros ([k' b] & -> & Hin). apply list_elem_of_filter in Hin as [Hb Hin].
    simpl in Hb. subst b. apply list_elem_of_lookup in Hin as [p Hp].
    apply lookup_zip_Some in Hp. eauto.
  - intros (p & Hk & Hb). exists (k, true). split; [reflexivity|].
    apply list_elem_of_filter. split; [reflexivity|].
    apply list_elem_of_lookup. exists p. by apply lookup_zip_Some.
Qed.

Lemma index_getitem_OK (idx : list scalar) (m : mask) :
  length idx = length m → is_ok (index_getitem idx m) = true.
Proof. intros Hlen. unfold index_getitem. by rewrite decide_True. Qed.

(** A label of the index can be read back. *)
Lemma getitem_OK (series : Series) (k v : scalar) :
  (k, v) ∈ rows series → ∃ it, getitem series k = OK it.
Proof.
  intros Hin. unfold getitem.
  destruct (filter (λ r, r.1 = k) (rows series)) as [|r [|r' rs]] eqn:Hf; eauto.
  exfalso. exact (filter_nil_not_elem_of _ _ (k, v) Hf eq_refl Hin).
Qed.

(** When the cell read back is a scalar, it is the cell of every row that
    carries the label. *)
Lemma getitem_Item (series : Series) (k v u : scalar) :
  getitem series k = OK (Item u) → (k, v) ∈ rows series → u = v.
Proof.
  unfold getitem. intros Hget Hin.
  assert ((k, v) ∈ filter (λ r, r.1 = k) (rows series)) as Hf
    by (by apply list_elem_of_filter).
  destruct (filter (λ r, r.1 = k) (rows series)) as [|r [|r' rs]];
    simplify_eq.
  apply list_elem_of_singleton in Hf. by subst r.
Qed.

Lemma filter_label_fresh (l : list (scalar * scalar)) (k : scalar) :
  k ∉ l.*1 → filter (λ r, r.1 = k) l = [].
Proof.
  induction l as [|[k' v'] l IH]; [reflexivity|].
  rewrite fmap_cons. intros [Hne Hl]%not_elem_of_cons.
  rewrite filter_cons_False by naive_solver. by apply IH.
Qed.

Lemma filter_label_NoDup (l : list (scalar * scalar)) (k v : scalar) :
  NoDup l.*1 → (k, v) ∈ l → filter (λ r, r.1 = k) l = [(k, v)].
Proof.
  induction l as [|[k' v'] l IH]; [by intros _ ?%elem_of_nil|].
  rewrite fmap_cons. intros [Hk' Hnd]%list.NoDup_cons [Heq|Hin]%elem_of_cons.
  - simplify_eq. rewrite filter_cons_True by reflexivity.
    by rewrite filter_label_fresh.
  - assert (k' ≠ k) as Hne.
    { intros ->. apply Hk'. apply list_elem_of_fmap. by exists (k, v). }
    rewrite filter_cons_False by naive_solver. by apply IH.
Qed.

(** With a unique index the cell read back is the scalar stored in the row. *)
Lemma getitem_NoDup (series : Series) (k v : scalar) :
  NoDup (index series) → (k, v) ∈ rows series → getitem series k = OK (Item v).
Proof.
  unfold index, getitem. intros Hnd Hin.
  by rewrite (filter_label_NoDup _ k v).
Qed.

Lemma lookup_values (series : Series) (p : nat) :
  values series !! p = snd <$> rows series !! p.
Proof. unfold values. apply list_lookup_fmap. Qed.

Lemma lookup_index (series : Series) (p : nat) :
  index series !! p = fst <$> rows series !! p.
Proof. unfold index. apply list_lookup_fmap. Qed.

Section rules.
Context `{Runtime}.

(** ** Length of the masks *)

Lemma apply_length {B} (f : scalar → result B) (series : Series) (l : list B) :
  apply f series = OK l → length l = length (rows series).
Proof.
  unfold apply. intros Hl%mapM_OK_length. by rewrite Hl, length_values.
Qed.

Lemma length_astype_unicode (series : Series) :
  length (astype_unicode series) = length (rows series).
Proof. unfold astype_unicode. by rewrite length_fmap, length_values. Qed.

Lemma validate_length (self : SeriesValidation) (series : Series) (m : mask) :
  series_functions_aligned self series →
  validate self series = OK m →
  length m = length (rows series).
Proof.
  revert m.
  induction self as [negated IH custom | v_a IHa v_b IHb operator | f custom
                    | f custom | min max custom | func custom | func custom
                    | pattern options custom | custom | custom
                    | options case_sensitive custom | date_format custom];
    intros m Haligned Hm; simpl in Hm, Haligned.
  - inv_bind Hm. injection Hm as <-. rewrite length_mask_not. by apply IH.
  - destruct Haligned as [Ha Hb]. inv_bind Hm. inv_bind Hm.
    assert (mask_zip (match operator with or_ => orb | and_ => andb end) a a0
            = OK m) as Hzip by (by destruct operator).
    apply mask_zip_inv in Hzip as [Hlen ->].
    rewrite length_zip_with_l_eq by assumption. by apply IHa.
  - by apply Haligned.
  - by eapply apply_length.
  - inv_bind Hm. apply mask_zip_inv in Hm as [Hlen ->].
    rewrite length_zip_with_l_eq by assumption.
    unfold to_numeric in Ha. apply mapM_OK_length in Ha.
    unfold ge. by rewrite length_fmap, Ha, length_values.
  - by eapply apply_length.
  - by eapply apply_length.
  - inv_bind Hm. injection Hm as <-.
    by rewrite length_fmap, length_astype_unicode.
  - inv_bind Hm. injection Hm as <-.
    by rewrite length_mask_not, length_fmap, length_astype_unicode.
  - inv_bind Hm. injection Hm as <-.
    by rewrite length_mask_not, length_fmap, length_astype_unicode.
  - destruct case_sensitive.
    + injection Hm as <-. unfold isin. by rewrite length_fmap, length_values.
    + discriminate.
  - apply mapM_OK_length in Hm. by rewrite Hm, length_astype_unicode.
Qed.

(** ** [get_errors] *)

(** With [allow_empty] the mask of the reported rows is never computed:
    reading the lengths of the cells raises.  Without it the reported rows
    are the failing ones. *)
Lemma validated_true (series : Series) (column : Column) (m validated : mask) :
  (if allow_empty column
   then lengths ← unicode_len series; mask_and (gt lengths (Num 0)) (mask_not m)
   else OK (mask_not m)) = OK validated →
  allow_empty column = false ∧ validated = mask_not m.
Proof.
  destruct (allow_empty column); simpl; [discriminate|]. by intros [= <-].
Qed.

(** With [allow_empty = true], [get_errors] raises: the exception of
    [validate], or else the [AttributeError] of [series.unicode]. *)
Lemma get_errors_allow_empty (self : SeriesValidation) (series : Series) :
  get_errors self series (mkColumn true)
  = match validate self series with
    | OK _ => Err AttributeError
    | Err e => Err e
    end.
Proof. unfold get_errors. by destruct (validate self series). Qed.

(** What a successful [get_errors] returns: one warning per failing row,
    in row order. *)
Lemma get_errors_inv (self : SeriesValidation) (series : Series)
    (column : Column) (ws : list ValidationWarning.t) :
  get_errors self series column = OK ws →
  allow_empty column = false ∧
  ∃ m labels,
    validate self series = OK m ∧
    length m = length (rows series) ∧
    (∀ k, k ∈ labels ↔
          ∃ p v, rows series !! p = Some (k, v) ∧ m !! p = Some false) ∧
    Forall2 (λ k w, ValidationWarning.row w = k ∧
                    getitem series k = OK (ValidationWarning.value w) ∧
                    message self = OK (ValidationWarning.message w) ∧
                    ValidationWarning.column w = name series)
            labels ws.
Proof.
  unfold get_errors. intros Hws.
  inv_bind Hws. rename a into m. inv_bind Hws. rename a into validated.
  inv_bind Hws. rename a into labels.
  apply validated_true in Ha0 as [Hae ->]. split; [exact Hae|].
  apply elem_of_index_getitem in Ha1 as [Hidx Hlabels].
  exists m, labels. split; [done|]. split.
  { by rewrite <- (length_mask_not m), <- Hidx, length_index. }
  split.
  - intros k. rewrite Hlabels. split.
    + intros (p & Hk & Hp). rewrite lookup_index in Hk.
      destruct (rows series !! p) as [[k' v]|] eqn:Hrow; simplify_eq/=.
      exists p, v. split; [done|]. rewrite lookup_mask_not in Hp.
      destruct (m !! p) as [[]|]; by simplify_eq/=.
    + intros (p & v & Hrow & Hm). exists p. split.
      * by rewrite lookup_index, Hrow.
      * by rewrite lookup_mask_not, Hm.
  - apply mapM_OK_Forall2 in Hws. clear Hlabels.
    induction Hws as [|k w ? ? Hw ? IH]; [constructor|].
    constructor; [|exact IH]. simpl in Hw. inv_bind Hw. inv_bind Hw.
    injection Hw as <-. simpl. done.
Qed.

(** With [allow_empty = false], [get_errors] returns whenever the rule
    produced a mask of the column's length and its message can be read. *)
Lemma get_errors_total (self : SeriesValidation) (series : Series)
    (m : mask) (msg : scalar) :
  validate self series = OK m →
  length m = length (rows series) →
  message self = OK msg →
  ∃ ws, get_errors self series (mkColumn false) = OK ws.
Proof.
  intros Hm Hlen Hmsg. unfold get_errors. rewrite Hm. simpl.
  destruct (index_getitem (index series) (mask_not m)) as [labels|e] eqn:Hidx.
  2:{ pose proof (index_getitem_OK (index series) (mask_not m)) as Hok.
      rewrite Hidx in Hok. simpl in Hok.
      rewrite length_index, length_mask_not, Hlen in Hok.
      by specialize (Hok eq_refl). }
  simpl. apply elem_of_index_getitem in Hidx as [_ Hlabels].
  assert (∀ k, k ∈ labels → ∃ it, getitem series k = OK it) as Hget.
  { intros k (p & Hk & _)%Hlabels. rewrite lookup_index in Hk.
    destruct (rows series !! p) as [[k' v]|] eqn:Hrow; simplify_eq/=.
    apply (getitem_OK series k v). apply list_elem_of_lookup. eauto. }
  apply mapM_is_OK. intros k [it Hit]%Hget. rewrite Hit, Hmsg. simpl. eauto.
Qed.

(** ** Empty cells *)

(** C1. With [allow_empty = true] the exemption of empty cells that the
    comments of [get_errors] announce is never computed: the source reads
    [series.unicode], which no Series has, so [get_errors] raises (the
    exception of [validate], or else [AttributeError]) and returns no
    warnings at all, for the column [["a", "", "b"]] as for every other.
    With [allow_empty = false] every row the mask marks as failing is
    reported, whatever its cell is (the empty string included):
    [get_errors] returns, and its warnings contain one for the row, with the
    rule's message, the row's label, the column's name and (with a unique
    index) the row's cell. *)
Theorem get_errors_empty_cells (self : SeriesValidation) (series : Series) :
  get_errors self series (mkColumn true)
  = match validate self series with
    | OK _ => Err AttributeError
    | Err e => Err e
    end ∧
  get_errors only_a letters (mkColumn true) = Err AttributeError ∧
  (∀ m msg,
     validate self series = OK m →
     length m = length (rows series) →
     message self = OK msg →
     ∃ ws, get_errors self series (mkColumn false) = OK ws ∧
       ∀ p k v, rows series !! p = Some (k, v) → m !! p = Some false →
         ∃ w, w ∈ ws ∧
              ValidationWarning.row w = k ∧
              ValidationWarning.message w = msg ∧
              ValidationWarning.column w = name series ∧
              (NoDup (index series) → ValidationWarning.value w = Item v)).
Proof.
  split; [apply get_errors_allow_empty|]. split; [reflexivity|].
  intros m msg Hm Hlen Hmsg.
  destruct (get_errors_total self series m msg Hm Hlen Hmsg) as [ws Hws].
  exists ws. split; [done|]. intros p k v Hp Hfail.
  apply get_errors_inv in Hws as (_ & m' & labels & Hm' & _ & Hlabels & Hws).
  assert (k ∈ labels) as [i Hi]%list_elem_of_lookup.
  { apply Hlabels. exists p, v. split; [done|congruence]. }
  destruct (Forall2_lookup_l _ _ _ _ _ Hws Hi) as (w & Hw & Hrow & Hget & Hmw & Hcol).
  exists w. split; [apply list_elem_of_lookup; eauto|].
  repeat split; [done| congruence | done |].
  intros Hnd. rewrite (getitem_NoDup series k v Hnd) in Hget.
  - by simplify_eq.
  - apply list_elem_of_lookup. eauto.
Qed.

(** ** Callables *)

Lemma can_call_is_ok (func : pyobj) (var : scalar) :
  can_call func var = OK (is_ok (call func var)).
Proof. unfold can_call. by destruct (call func var). Qed.

Lemma validate_can_call (func : pyobj) (series : Series) :
  apply (can_call func) series = OK ((λ v, is_ok (call func v)) <$> values series).
Proof. unfold apply. apply mapM_OK_fmap. intros v _. apply can_call_is_ok. Qed.

(** C2. [CanCallValidation.__init__] tests [callable(type)], the builtin,
    and not its argument, so the error branch is never taken: construction
    succeeds for every argument, also for the integer 5, which is not
    callable.  The failure then shows only at evaluation, where every call
    raises and every row gets a warning. *)
Theorem CanCallValidation_accepts_non_callable :
  (∀ func message, CanCallValidation func message = OK (CanCall func message)) ∧
  callable (Data (PyNum (Num 5))) = false ∧
  CanCallValidation (Data (PyNum (Num 5))) PyNone
  = OK (CanCall (Data (PyNum (Num 5))) PyNone) ∧
  get_errors (CanCall (Data (PyNum (Num 5))) PyNone)
             (pd_Series [PyStr "a"; PyStr "b"] (PyStr "c")) (mkColumn false)
  = OK [ValidationWarning.mk
          (PyStr "raised an exception when the callable 5 was called on it")
          (Item (PyStr "a")) (PyNum (Num 0)) (PyStr "c");
        ValidationWarning.mk
          (PyStr "raised an exception when the callable 5 was called on it")
          (Item (PyStr "b")) (PyNum (Num 1)) (PyStr "c")].
Proof. repeat split; reflexivity. Qed.

(** C3. An exception raised by the callable of a [CanCallValidation] or a
    [CanConvertValidation] on one cell is caught in [can_call]: [validate]
    never raises and returns a mask that is false exactly at the cells on
    which the call raises.  With [allow_empty = false], [get_errors] returns
    a list of warnings; in particular, for a function that raises exactly on
    3, the column [[1, 2, 3]] gets exactly one warning, for the row holding
    3.  With [allow_empty = true] an exception does escape [get_errors]: not
    that of the callable, but the [AttributeError] of [series.unicode]. *)
Theorem can_call_contains_exceptions (func : pyobj) (custom : scalar)
    (series : Series) :
  validate (CanCall func custom) series
  = OK ((λ v, is_ok (call func v)) <$> values series) ∧
  validate (CanConvert func custom) series
  = OK ((λ v, is_ok (call func v)) <$> values series) ∧
  (∃ ws, get_errors (CanCall func custom) series (mkColumn false) = OK ws) ∧
  (∃ ws, get_errors (CanConvert func custom) series (mkColumn false) = OK ws) ∧
  get_errors (CanCall func custom) series (mkColumn true) = Err AttributeError ∧
  get_errors (CanConvert func custom) series (mkColumn true)
  = Err AttributeError ∧
  (∀ text body name,
     (∀ v, is_ok (body v) = false ↔ v = PyNum (Num 3)) →
     ∃ rule,
       CanCallValidation (Function text body) PyNone = OK rule ∧
       get_errors rule
         (pd_Series [PyNum (Num 1); PyNum (Num 2); PyNum (Num 3)] name)
         (mkColumn false)
       = OK [ValidationWarning.mk
               (PyStr ("raised an exception when the callable " +:+ text
                       +:+ " was called on it"))
               (Item (PyNum (Num 3))) (PyNum (Num 2)) name]).
Proof.
  assert (∀ rule,
            validate rule series
            = OK ((λ v, is_ok (call func v)) <$> values series) →
            is_ok (message rule) = true →
            ∃ ws, get_errors rule series (mkColumn false) = OK ws) as Htotal.
  { intros rule Hm Hmsg. destruct (message rule) as [msg|] eqn:Hmsg'; [|done].
    eapply get_errors_total; [exact Hm| |exact Hmsg'].
    by rewrite length_fmap, length_values. }
  assert (∀ rule,
            validate rule series
            = OK ((λ v, is_ok (call func v)) <$> values series) →
            get_errors rule series (mkColumn true) = Err AttributeError)
    as Hraises.
  { intros rule Hm. by rewrite get_errors_allow_empty, Hm. }
  repeat split.
  - apply validate_can_call.
  - apply validate_can_call.
  - apply Htotal; [apply validate_can_call|].
    unfold message, py_or. simpl. by destruct (truthy custom).
  - apply Htotal; [apply validate_can_call|].
    unfold message, py_or. simpl. by destruct (truthy custom).
  - apply Hraises, validate_can_call.
  - apply Hraises, validate_can_call.
  - intros text body name Hbody. eexists. split; [reflexivity|].
    unfold get_errors. simpl. unfold apply. simpl. rewrite !can_call_is_ok. simpl.
    destruct (body (PyNum (Num 1))) as [|e1] eqn:H1; simpl.
    2:{ assert (is_ok (body (PyNum (Num 1))) = false) as Hx by (by rewrite H1).
        by apply Hbody in Hx. }
    destruct (body (PyNum (Num 2))) as [|e2] eqn:H2; simpl.
    2:{ assert (is_ok (body (PyNum (Num 2))) = false) as Hx by (by rewrite H2).
        by apply Hbody in Hx. }
    destruct (body (PyNum (Num 3))) as [|e3] eqn:H3; simpl.
    1:{ assert (is_ok (body (PyNum (Num 3))) = false) as Hx by (by apply Hbody).
        by rewrite H3 in Hx. }
    reflexivity.
Qed.

(** ** Combinators *)

(** C4. The mask of a negated rule [~R] is the position-wise negation of
    the mask of [R] on the same column: the same length, and at every row
    the opposite boolean.  When [R] raises, so does [~R]. *)
Theorem inverse_validate_negates (R : SeriesValidation) (series : Series) :
  validate (__invert__ R) series = mask_not <$> validate R series ∧
  (∀ e, validate R series = Err e → validate (__invert__ R) series = Err e) ∧
  (∀ m, validate R series = OK m →
        ∃ m', validate (__invert__ R) series = OK m' ∧
              length m' = length m ∧
              ∀ p, m' !! p = negb <$> m !! p).
Proof.
  assert (validate (__invert__ R) series = mask_not <$> validate R series) as Heq.
  { simpl. by destruct (validate R series). }
  split; [exact Heq|]. rewrite Heq. split.
  - by intros e ->.
  - intros m ->. exists (mask_not m). split; [reflexivity|].
    split; [apply length_mask_not|]. intros p. apply lookup_mask_not.
Qed.

Lemma validate_Combined (A B : SeriesValidation) (operator : binop)
    (series : Series) (ma mb : mask) :
  validate A series = OK ma →
  validate B series = OK mb →
  length ma = length mb →
  validate (Combined A B operator) series
  = OK (zip_with (match operator with or_ => orb | and_ => andb end) ma mb).
Proof.
  intros Ha Hb Hlen. simpl. rewrite Ha, Hb. simpl.
  destruct operator; simpl; unfold mask_or, mask_and; by rewrite mask_zip_OK.
Qed.

(** C5. When [A] and [B] produce masks for the column (of one length, as
    masks of one column are), the mask of [A & B] is their position-wise
    conjunction and the mask of [A | B] their position-wise disjunction.
    Both operands are always evaluated, first [A], then [B]: an exception
    of [B] escapes whatever the mask of [A] is, so nothing is
    short-circuited. *)
Theorem combined_validate_positionwise (A B : SeriesValidation) (series : Series) :
  (∀ ma mb,
     validate A series = OK ma →
     validate B series = OK mb →
     length ma = length mb →
     ∃ m_and m_or,
       validate (__and__ A B) series = OK m_and ∧
       validate (__or__ A B) series = OK m_or ∧
       length m_and = length ma ∧
       length m_or = length ma ∧
       ∀ p a b, ma !! p = Some a → mb !! p = Some b →
                m_and !! p = Some (a && b) ∧ m_or !! p = Some (a || b)) ∧
  (∀ e, validate A series = Err e →
        validate (__and__ A B) series = Err e ∧
        validate (__or__ A B) series = Err e) ∧
  (∀ ma e, validate A series = OK ma → validate B series = Err e →
           validate (__and__ A B) series = Err e ∧
           validate (__or__ A B) series = Err e).
Proof.
  split; [|split].
  - intros ma mb Ha Hb Hlen.
    exists (zip_with andb ma mb), (zip_with orb ma mb).
    split; [by apply (validate_Combined A B and_)|].
    split; [by apply (validate_Combined A B or_)|].
    rewrite !length_zip_with_l_eq by done. repeat split.
    + rewrite lookup_zip_with. by simplify_option_eq.
    + rewrite lookup_zip_with. by simplify_option_eq.
  - intros e Ha. simpl. by rewrite Ha.
  - intros ma e Ha Hb. simpl. by rewrite Ha, Hb.
Qed.

(** C6, as amended.  Every rule built from the classes of the module, the
    combinators included, returns a mask with one boolean per row of the
    column, provided the whole-series functions that the user handed to
    [CustomSeriesValidation] inside it (if any) do so themselves. *)
Theorem mask_length_of_aligned_rules (R : SeriesValidation) (C : Series) (m : mask) :
  series_functions_aligned R C →
  validate R C = OK m →
  length m = length (values C).
Proof.
  intros Haligned Hm. rewrite length_values. by eapply validate_length.
Qed.

(** ** The range rule *)

Lemma to_numeric_cell_Err (v : scalar) (e : exn) :
  to_numeric_cell v = Err e → e = ValueError.
Proof.
  destruct v as [|n|s]; simpl; try discriminate.
  destruct (text_to_number s); [discriminate|]. by intros [= <-].
Qed.

Lemma validate_InRange (min max : number) (custom : scalar) (series : Series)
    (numeric : list number) :
  to_numeric series = OK numeric →
  validate (InRange min max custom) series
  = OK (zip_with andb (ge numeric min) (lt numeric max)).
Proof.
  intros Hnum. simpl. rewrite Hnum. simpl. unfold mask_and.
  apply mask_zip_OK. unfold ge, lt. by rewrite !length_fmap.
Qed.

(** C7. When a cell of the column cannot be coerced to a number,
    [InRangeValidation.validate] raises the conversion error of
    [pd.to_numeric], and so does [get_errors]: the error reaches the caller
    and no list of warnings is returned.  In particular, with a text ["x"]
    that does not parse, [Range(min=0, max=10).get_errors] on
    [[-1, 5, 10, "x"]] with [allow_empty = false] raises. *)
Theorem in_range_conversion_error_propagates (min max : number)
    (custom : scalar) (series : Series) (column : Column) :
  (∀ v e, v ∈ values series → to_numeric_cell v = Err e →
          validate (InRange min max custom) series = Err ValueError ∧
          get_errors (InRange min max custom) series column = Err ValueError) ∧
  (text_to_number "x" = None →
   ∀ name,
     get_errors (InRangeValidation (Some (Num 0)) (Some (Num 10)) PyNone)
       (pd_Series [PyNum (Num (-1)); PyNum (Num 5); PyNum (Num 10); PyStr "x"]
                  name)
       (mkColumn false)
     = Err ValueError).
Proof.
  split.
  - intros v e Hin Hv.
    assert (to_numeric series = Err ValueError) as Hnum.
    { unfold to_numeric. apply (mapM_Err _ _ v).
      - intros y e'. apply to_numeric_cell_Err.
      - exact Hin.
      - by rewrite Hv, (to_numeric_cell_Err v e Hv). }
    assert (validate (InRange min max custom) series = Err ValueError) as Hval.
    { simpl. by rewrite Hnum. }
    split; [exact Hval|]. unfold get_errors. by rewrite Hval.
  - intros Hx name. unfold get_errors. simpl. unfold to_numeric. simpl.
    by rewrite Hx.
Qed.


End rules.

(** ** Messages *)

(** C9, as amended.  The default message of a rule combined with [&] or [|]
    from rules whose messages are the texts [ma] and [mb] is
    ["(" + ma + ") " + op + " (" + mb + ")"], where [op] is the text that
    formatting the stored operator function gives:
    ["<built-in function and_>"] for [&] and ["<built-in function or_>"]
    for [|].  A combined rule has no message of its own, so this is also its
    message. *)
Theorem combined_default_message (a b : SeriesValidation) (ma mb : string) :
  message a = OK (PyStr ma) →
  message b = OK (PyStr mb) →
  default_message (__and__ a b)
  = OK (PyStr ("(" +:+ ma +:+ ") " +:+ "<built-in function and_>"
               +:+ " (" +:+ mb +:+ ")")) ∧
  default_message (__or__ a b)
  = OK (PyStr ("(" +:+ ma +:+ ") " +:+ "<built-in function or_>"
               +:+ " (" +:+ mb +:+ ")")) ∧
  message (__and__ a b) = default_message (__and__ a b) ∧
  message (__or__ a b) = default_message (__or__ a b).
Proof.
  intros Ha Hb. unfold message in Ha, Hb.
  repeat split; simpl; by rewrite ?Ha, ?Hb.
Qed.

(** C10. The [message] property is the stored custom message when that
    message is truthy, and [default_message] otherwise: a custom text that is
    not empty is the message, while an empty custom text counts like an
    absent one ([None]) and gives the default message. *)
Theorem message_selected_by_truthiness (self : SeriesValidation) :
  message self
  = (if truthy (_custom_message self) then OK (_custom_message self)
     else default_message self) ∧
  (∀ s, _custom_message self = PyStr s → s ≠ "" → message self = OK (PyStr s)) ∧
  (_custom_message self = PyStr "" → message self = default_message self) ∧
  (_custom_message self = PyNone → message self = default_message self).
Proof.
  unfold message, py_or. repeat split.
  - intros s -> Hs. simpl. destruct s; [done|reflexivity].
  - by intros ->.
  - by intros ->.
Qed.

(** ** Counterexamples to the claims as first stated *)

(** C6 as stated fails: a [CustomSeriesValidation] returns whatever its
    function returns, here one boolean for a column of two rows. *)
Lemma custom_series_mask_length_counterexample :
  @validate integer_runtime
    (CustomSeries (λ _, OK [true]) (PyStr "failed"))
    (pd_Series [PyStr "a"; PyStr "b"] (PyStr "c"))
  = OK [true] ∧
  length [true] ≠ length (values (pd_Series [PyStr "a"; PyStr "b"] (PyStr "c"))).
Proof. split; [reflexivity|]. simpl. lia. Qed.

(** C9 as stated fails: the operator printed in the message is not the
    word [AND] (nor the symbol [&]) but the text of the function object. *)
Lemma combined_default_message_counterexample :
  default_message (__and__ (TrailingWhitespace (PyStr "a"))
                           (LeadingWhitespace (PyStr "b")))
  = OK (PyStr "(a) <built-in function and_> (b)") ∧
  default_message (__and__ (TrailingWhitespace (PyStr "a"))
                           (LeadingWhitespace (PyStr "b")))
  ≠ OK (PyStr ("(" +:+ "a" +:+ ") " +:+ "AND" +:+ " (" +:+ "b" +:+ ")")) ∧
  default_message (__or__ (TrailingWhitespace (PyStr "a"))
                          (LeadingWhitespace (PyStr "b")))
  ≠ OK (PyStr ("(" +:+ "a" +:+ ") " +:+ "OR" +:+ " (" +:+ "b" +:+ ")")).
Proof.
  split; [reflexivity|].
  split; intros Heq; vm_compute in Heq; discriminate.
Qed.

(** ** The theorems at concrete inputs *)

Lemma get_errors_empty_cells_witness :
  ∃ ws, @get_errors integer_runtime only_a letters (mkColumn false) = OK ws ∧
        ∃ w, w ∈ ws ∧
             ValidationWarning.row w = PyNum (Num 1) ∧
             ValidationWarning.value w = Item (PyStr "").
Proof.
  destruct (@get_errors_empty_cells integer_runtime only_a letters)
    as (_ & _ & Hfalse).
  assert (NoDup (index letters)) as Hunique.
  { refine (bool_decide_unpack _ _). vm_compute. exact I. }
  destruct (Hfalse [true; false; false]
              (PyStr "is not in the list of legal options (a)")
              eq_refl eq_refl eq_refl) as (ws & Hws & Hreported).
  exists ws. split; [exact Hws|].
  destruct (Hreported 1%nat (PyNum (Num 1)) (PyStr "") eq_refl eq_refl)
    as (w & Hin & Hrow & _ & _ & Hvalue).
  exists w. split; [exact Hin|]. split; [exact Hrow|].
  exact (Hvalue Hunique).
Defined.

Lemma can_call_contains_exceptions_witness :
  ∃ rule,
    CanCallValidation raises_on_3 PyNone = OK rule ∧
    @get_errors integer_runtime rule
      (pd_Series [PyNum (Num 1); PyNum (Num 2); PyNum (Num 3)] (PyStr "n"))
      (mkColumn false)
    = OK [ValidationWarning.mk
            (PyStr "raised an exception when the callable <function f> was called on it")
            (Item (PyNum (Num 3))) (PyNum (Num 2)) (PyStr "n")].
Proof.
  destruct (@can_call_contains_exceptions integer_runtime raises_on_3 PyNone
              numbers) as (_ & _ & _ & _ & _ & _ & Hexample).
  apply (Hexample "<function f>"
           (λ v, if decide (v = PyNum (Num 3)) then Err (Raised "three") else OK tt)
           (PyStr "n")).
  intros v. destruct (decide (v = PyNum (Num 3))) as [Heq|Hne]; simpl.
  - split; [intros _; exact Heq | reflexivity].
  - split; [discriminate | intros Heq; destruct (Hne Heq)].
Defined.

Lemma inverse_validate_negates_witness :
  (∃ m', @validate integer_runtime (__invert__ zero_to_ten) numbers = OK m' ∧
         length m' = length [true; false; false] ∧
         ∀ p, m' !! p = negb <$> [true; false; false] !! p) ∧
  @validate integer_runtime (__invert__ zero_to_ten) with_text = Err ValueError.
Proof.
  split.
  - destruct (@inverse_validate_negates integer_runtime zero_to_ten numbers)
      as (_ & _ & Hok).
    exact (Hok [true; false; false] eq_refl).
  - destruct (@inverse_validate_negates integer_runtime zero_to_ten with_text)
      as (_ & Herr & _).
    exact (Herr ValueError eq_refl).
Defined.

Lemma combined_validate_positionwise_witness :
  (∃ m_and m_or,
     @validate integer_runtime
       (__and__ zero_to_ten (InList [PyNum (Num 15)] true PyNone)) numbers
     = OK m_and ∧
     @validate integer_runtime
       (__or__ zero_to_ten (InList [PyNum (Num 15)] true PyNone)) numbers
     = OK m_or ∧
     m_and !! 1%nat = Some false ∧ m_or !! 1%nat = Some true) ∧
  @validate integer_runtime (__and__ zero_to_ten only_a) with_text
  = Err ValueError ∧
  @validate integer_runtime (__or__ only_a zero_to_ten) with_text
  = Err ValueError.
Proof.
  split; [|split].
  - destruct (@combined_validate_positionwise integer_runtime zero_to_ten
                (InList [PyNum (Num 15)] true PyNone) numbers) as (Hok & _ & _).
    destruct (Hok [true; false; false] [false; true; false]
                eq_refl eq_refl eq_refl)
      as (m_and & m_or & Hand & Hor & _ & _ & Hpos).
    exists m_and, m_or. split; [exact Hand|]. split; [exact Hor|].
    exact (Hpos 1%nat false true eq_refl eq_refl).
  - destruct (@combined_validate_positionwise integer_runtime zero_to_ten
                only_a with_text) as (_ & Herr & _).
    exact (proj1 (Herr ValueError eq_refl)).
  - destruct (@combined_validate_positionwise integer_runtime only_a
                zero_to_ten with_text) as (_ & _ & Herr).
    exact (proj2 (Herr [false; false; false; false] ValueError eq_refl eq_refl)).
Defined.

Lemma mask_length_of_aligned_rules_witness :
  series_functions_aligned (__and__ (__invert__ zero_to_ten) every_row) numbers ∧
  @validate integer_runtime (__and__ (__invert__ zero_to_ten) every_row) numbers
  = OK [false; true; true] ∧
  length [false; true; true] = length (values numbers).
Proof.
  assert (series_functions_aligned
            (__and__ (__invert__ zero_to_ten) every_row) numbers) as Haligned.
  { simpl. split; [exact I|]. intros m Hm. injection Hm as <-. reflexivity. }
  split; [exact Haligned|]. split; [reflexivity|].
  exact (@mask_length_of_aligned_rules integer_runtime
           (__and__ (__invert__ zero_to_ten) every_row) numbers
           [false; true; true] Haligned eq_refl).
Defined.

Lemma in_range_conversion_error_propagates_witness :
  @validate integer_runtime (InRange (Num 0) (Num 10) PyNone) with_text
  = Err ValueError ∧
  @get_errors integer_runtime (InRange (Num 0) (Num 10) PyNone) with_text
    (mkColumn true)
  = Err ValueError ∧
  @get_errors integer_runtime zero_to_ten with_text (mkColumn false)
  = Err ValueError.
Proof.
  destruct (@in_range_conversion_error_propagates integer_runtime
              (Num 0) (Num 10) PyNone with_text (mkColumn true))
    as [Hgeneral Hexample].
  assert (PyStr "x" ∈ values with_text) as Hin.
  { refine (bool_decide_unpack _ _). vm_compute. exact I. }
  destruct (Hgeneral (PyStr "x") ValueError Hin eq_refl) as [Hvalidate Herrors].
  split; [exact Hvalidate|]. split; [exact Herrors|].
  exact (Hexample eq_refl (PyStr "n")).
Defined.


Lemma combined_default_message_witness :
  default_message (__and__ (TrailingWhitespace (PyStr "a")) zero_to_ten)
  = OK (PyStr "(a) <built-in function and_> (was not in the range [0, 10))") ∧
  default_message (__or__ (TrailingWhitespace (PyStr "a")) zero_to_ten)
  = OK (PyStr "(a) <built-in function or_> (was not in the range [0, 10))").
Proof.
  destruct (combined_default_message (TrailingWhitespace (PyStr "a")) zero_to_ten
              "a" "was not in the range [0, 10)" eq_refl eq_refl)
    as (Hand & Hor & _ & _).
  split; [exact Hand | exact Hor].
Defined.

Lemma message_selected_by_truthiness_witness :
  message (TrailingWhitespace (PyStr "has spaces")) = OK (PyStr "has spaces") ∧
  message (TrailingWhitespace (PyStr ""))
  = default_message (TrailingWhitespace (PyStr "")) ∧
  message (TrailingWhitespace PyNone) = default_message (TrailingWhitespace PyNone).
Proof.
  split; [|split].
  - destruct (message_selected_by_truthiness
                (TrailingWhitespace (PyStr "has spaces"))) as (_ & Htext & _ & _).
    apply Htext; [reflexivity|discriminate].
  - destruct (message_selected_by_truthiness (TrailingWhitespace (PyStr "")))
      as (_ & _ & Hempty & _).
    exact (Hempty eq_refl).
  - destruct (message_selected_by_truthiness (TrailingWhitespace PyNone))
      as (_ & _ & _ & Habsent).
    exact (Habsent eq_refl).
Defined.

(** * Further properties of the rule engine *)

(** ** Boolean algebra of the masks *)

Lemma mask_not_involutive (m : mask) : mask_not (mask_not m) = m.
Proof.
  unfold mask_not. induction m as [|b m IH]; [reflexivity|].
  rewrite !fmap_cons, IH. by destruct b.
Qed.

Lemma mask_not_zip_and (a b : mask) :
  mask_not (zip_with andb a b) = zip_with orb (mask_not a) (mask_not b).
Proof.
  unfold mask_not. revert b.
  induction a as [|x a IH]; intros [|y b]; simpl; [done..|].
  rewrite IH. by destruct x, y.
Qed.

Lemma mask_not_zip_or (a b : mask) :
  mask_not (zip_with orb a b) = zip_with andb (mask_not a) (mask_not b).
Proof.
  unfold mask_not. revert b.
  induction a as [|x a IH]; intros [|y b]; simpl; [done..|].
  rewrite IH. by destruct x, y.
Qed.

Lemma zip_with_bool_comm (f : bool → bool → bool) (a b : mask) :
  (∀ x y, f x y = f y x) → zip_with f a b = zip_with f b a.
Proof.
  intros Hf. revert b.
  induction a as [|x a IH]; intros [|y b]; simpl; [done..|].
  by rewrite IH, Hf.
Qed.



Section algebra.
Context `{Runtime}.

(** X1. Negating a rule twice gives back its mask, and its exception when
    it raises: [~~R] validates exactly like [R], whatever messages the two
    negations were given. *)
Theorem double_negation_validate (R : SeriesValidation) (c1 c2 : scalar)
    (series : Series) :
  validate (__invert__ (__invert__ R)) series = validate R series ∧
  validate (InverseValidation (InverseValidation R c1) c2) series
  = validate R series.
Proof.
  split; simpl; destruct (validate R series); simpl;
    by rewrite ?mask_not_involutive.
Qed.




End algebra.

(** ** The warnings of [get_errors] *)

Lemma filter_true_sublist_and (idx : list scalar) (g n : mask) :
  (filter (λ p, p.2 = true) (zip idx (zip_with andb g n))).*1
  `sublist_of` (filter (λ p, p.2 = true) (zip idx n)).*1.
Proof.
  revert g n. induction idx as [|k idx IH]; intros g n; [by destruct g, n|].
  destruct g as [|x g], n as [|y n]; simpl; try apply sublist_nil_l.
  rewrite !filter_cons. simpl.
  destruct x, y; simpl; rewrite ?fmap_cons;
    try (apply sublist_skip); try (apply sublist_cons); apply IH.
Qed.

Lemma length_filter_true_not (idx : list scalar) (v : mask) :
  length idx = length v →
  length (filter (λ p, p.2 = true) (zip idx v))
  + length (filter (λ p, p.2 = true) (zip idx (mask_not v)))
  = length idx.
Proof.
  revert v. induction idx as [|k idx IH]; intros [|b v] Hlen;
    simplify_eq/=; [done|].
  rewrite !filter_cons. simpl. specialize (IH v Hlen).
  destruct b; simpl; lia.
Qed.

Lemma filter_true_sublist_or (idx : list scalar) (g n : mask) :
  length g = length n →
  (filter (λ p, p.2 = true) (zip idx n)).*1
  `sublist_of` (filter (λ p, p.2 = true) (zip idx (zip_with orb g n))).*1.
Proof.
  revert g n. induction idx as [|k idx IH]; intros g n Hlen; [by destruct g, n|].
  destruct g as [|x g], n as [|y n]; simplify_eq/=; [done|].
  rewrite !filter_cons. simpl.
  destruct x, y; simpl; rewrite ?fmap_cons;
    try (apply sublist_skip); try (apply sublist_cons); by apply IH.
Qed.

Section warnings.
Context `{Runtime}.

(** The labels of the warnings are read off the index with the negated
    mask, and every warning is determined by its label. *)
Lemma get_errors_rows (self : SeriesValidation) (series : Series)
    (column : Column) (ws : list ValidationWarning.t) :
  get_errors self series column = OK ws →
  allow_empty column = false ∧
  ∃ m,
    validate self series = OK m ∧
    length m = length (rows series) ∧
    ValidationWarning.row <$> ws
    = (filter (λ p, p.2 = true) (zip (index series) (mask_not m))).*1 ∧
    Forall (λ w, getitem series (ValidationWarning.row w)
                 = OK (ValidationWarning.value w) ∧
                 message self = OK (ValidationWarning.message w) ∧
                 ValidationWarning.column w = name series) ws.
Proof.
  unfold get_errors. intros Hws.
  inv_bind Hws. rename a into m. inv_bind Hws. rename a into validated.
  inv_bind Hws. rename a into labels.
  apply validated_true in Ha0 as [Hae ->]. split; [exact Hae|].
  exists m. split; [done|].
  assert (ValidationWarning.row <$> ws = labels ∧
          Forall (λ w, getitem series (ValidationWarning.row w)
                       = OK (ValidationWarning.value w) ∧
                       message self = OK (ValidationWarning.message w) ∧
                       ValidationWarning.column w = name series) ws)
    as [Hrows Hall].
  { apply mapM_OK_Forall2 in Hws. clear -Hws.
    induction Hws as [|k w labels ws Hw _ IH]; [by split|].
    inv_bind Hw. inv_bind Hw. injection Hw as <-.
    destruct IH as [<- IH]. split; [reflexivity|].
    constructor; [|exact IH]. simpl. done. }
  unfold index_getitem in Ha1. case_decide as Hidx; [|discriminate].
  injection Ha1 as <-. split.
  { by rewrite <- (length_mask_not m), <- Hidx, length_index. }
  by split.
Qed.

(** X6. The warnings of [get_errors] follow the index: their labels are
    labels of the column, in row order, at most one per row; every warning
    carries the name of the column and the message of the rule. *)
Theorem warnings_follow_the_index (self : SeriesValidation) (series : Series)
    (column : Column) (ws : list ValidationWarning.t) :
  get_errors self series column = OK ws →
  ValidationWarning.row <$> ws `sublist_of` index series ∧
  length ws ≤ length (rows series) ∧
  ∀ w, w ∈ ws →
       ValidationWarning.row w ∈ index series ∧
       ValidationWarning.column w = name series ∧
       message self = OK (ValidationWarning.message w).
Proof.
  intros (_ & m & _ & Hlen & Hrows & Hws)%get_errors_rows.
  assert (ValidationWarning.row <$> ws `sublist_of` index series) as Hsub.
  { rewrite Hrows.
    rewrite <- (fst_zip (index series) (mask_not m)) at 2
      by (rewrite length_index, length_mask_not; lia).
    apply fmap_sublist, sublist_filter. }
  split; [exact Hsub|]. split.
  { apply sublist_length in Hsub. by rewrite length_fmap, length_index in Hsub. }
  intros w Hw. rewrite list.Forall_forall in Hws.
  destruct (Hws w Hw) as (_ & Hmsg & Hcol). split; [|done].
  eapply elem_of_sublist; [|exact Hsub]. apply list_elem_of_fmap. eauto.
Qed.

(** X7. A rule and its negation split the rows between them (with
    [allow_empty = false]): together they give as many warnings as the
    column has rows, every label is reported by one of them, and with a
    unique index by one only. *)
Theorem negation_partitions_rows (R : SeriesValidation) (series : Series)
    (ws ws' : list ValidationWarning.t) :
  get_errors R series (mkColumn false) = OK ws →
  get_errors (__invert__ R) series (mkColumn false) = OK ws' →
  length ws + length ws' = length (rows series) ∧
  (∀ k, k ∈ index series →
        k ∈ ValidationWarning.row <$> ws ∨ k ∈ ValidationWarning.row <$> ws') ∧
  (NoDup (index series) →
   ∀ k, k ∈ ValidationWarning.row <$> ws → k ∉ ValidationWarning.row <$> ws').
Proof.
  intros (_ & m & Hm & Hlen & Hrows & _)%get_errors_rows
         (_ & m' & Hm' & _ & Hrows' & _)%get_errors_rows.
  simpl in Hm'. rewrite Hm in Hm'. simpl in Hm'.
  simplify_eq. rewrite mask_not_involutive in Hrows'.
  assert (length (index series) = length m) as Hidx by (by rewrite length_index).
  split; [|split].
  - rewrite <- (length_fmap ValidationWarning.row ws),
            <- (length_fmap ValidationWarning.row ws'), Hrows, Hrows'.
    rewrite !length_fmap, Nat.add_comm, length_filter_true_not by done.
    by rewrite length_index.
  - intros k [p Hp]%list_elem_of_lookup. rewrite Hrows, Hrows'.
    destruct (lookup_lt_is_Some_2 m p) as [b Hb].
    { rewrite <- Hidx. by eapply lookup_lt_Some. }
    destruct b; [right|left]; apply list_elem_of_fmap; exists (k, true);
      (split; [reflexivity|]); apply list_elem_of_filter;
      (split; [reflexivity|]); apply list_elem_of_lookup; exists p;
      apply lookup_zip_Some; rewrite ?lookup_mask_not, ?Hb; done.
  - intros Hnd k. rewrite Hrows, Hrows', !list_elem_of_fmap.
    intros ([k1 b1] & -> & [Hb1 [p Hp]%list_elem_of_lookup]%list_elem_of_filter)
           ([k2 b2] & Hk & [Hb2 [q Hq]%list_elem_of_lookup]%list_elem_of_filter).
    simpl in *. subst.
    apply lookup_zip_Some in Hp as [Hkp Hmp], Hq as [Hkq Hmq].
    assert (p = q) by (by eapply NoDup_lookup). subst q.
    rewrite lookup_mask_not, Hmq in Hmp. discriminate.
Qed.

(** X8. A disjunction only removes warnings and a conjunction only adds
    some (with [allow_empty = false]): the rows that [A | B] reports are
    among those that [A] reports and among those that [B] reports, in the
    same order, and the rows that [A] or [B] reports are among those that
    [A & B] reports. *)
Theorem disjunction_removes_conjunction_adds (A B : SeriesValidation)
    (series : Series) (wa wb : list ValidationWarning.t) :
  get_errors A series (mkColumn false) = OK wa →
  get_errors B series (mkColumn false) = OK wb →
  (∀ w_or, get_errors (__or__ A B) series (mkColumn false) = OK w_or →
           ValidationWarning.row <$> w_or `sublist_of` ValidationWarning.row <$> wa ∧
           ValidationWarning.row <$> w_or `sublist_of` ValidationWarning.row <$> wb) ∧
  (∀ w_and, get_errors (__and__ A B) series (mkColumn false) = OK w_and →
            ValidationWarning.row <$> wa `sublist_of` ValidationWarning.row <$> w_and ∧
            ValidationWarning.row <$> wb `sublist_of` ValidationWarning.row <$> w_and).
Proof.
  intros (_ & ma & Hma & Hla & -> & _)%get_errors_rows
         (_ & mb & Hmb & Hlb & -> & _)%get_errors_rows.
  assert (length ma = length mb) as Hlen by congruence.
  split.
  - intros w_or (_ & m & Hm & _ & -> & _)%get_errors_rows.
    unfold __or__, _CombinedValidation in Hm.
    rewrite (validate_Combined A B or_ series ma mb Hma Hmb Hlen) in Hm.
    injection Hm as <-. rewrite mask_not_zip_or. split.
    + rewrite (zip_with_bool_comm andb) by (by intros [] []).
      apply filter_true_sublist_and.
    + apply filter_true_sublist_and.
  - intros w_and (_ & m & Hm & _ & -> & _)%get_errors_rows.
    unfold __and__, _CombinedValidation in Hm.
    rewrite (validate_Combined A B and_ series ma mb Hma Hmb Hlen) in Hm.
    injection Hm as <-. rewrite mask_not_zip_and. split.
    + rewrite (zip_with_bool_comm orb) by (by intros [] []).
      apply filter_true_sublist_or. by rewrite !length_mask_not.
    + apply filter_true_sublist_or. by rewrite !length_mask_not.
Qed.

End warnings.

(** ** Exact results and exceptions of [get_errors] *)

Lemma mapM_fmap {A B C} (f : B → result C) (h : A → B) (l : list A) :
  mapM f (h <$> l) = mapM (f ∘ h) l.
Proof.
  induction l as [|x l IH]; [reflexivity|].
  rewrite fmap_cons. simpl. by rewrite IH.
Qed.


Lemma failing_rows_labels (rs : list (scalar * scalar)) (m : mask) :
  (filter (λ p, p.2 = true) (zip rs.*1 (mask_not m))).*1
  = ((filter (λ p, p.2 = false) (zip rs m)).*1).*1.
Proof.
  revert m. induction rs as [|r rs IH]; intros [|b m]; simpl; [done..|].
  rewrite !filter_cons. simpl. destruct b; simpl; by rewrite ?fmap_cons, IH.
Qed.

Lemma filter_true_nil (idx : list scalar) (v : mask) :
  (∀ b, b ∈ v → b = false) → filter (λ p, p.2 = true) (zip idx v) = [].
Proof.
  revert v. induction idx as [|k idx IH]; intros [|b v] Hv; simpl; [done..|].
  rewrite filter_cons_False.
  - apply IH. intros b' Hb'. apply Hv. by apply list_elem_of_further.
  - simpl. rewrite (Hv b) by apply list_elem_of_here. discriminate.
Qed.

Lemma mapM_all_Err {A B} (f : A → result B) (l : list A) (e : exn) :
  l ≠ [] → (∀ x, x ∈ l → f x = Err e) → mapM f l = Err e.
Proof.
  destruct l as [|x l]; [done|]. intros _ Hf. simpl.
  by rewrite (Hf x) by apply list_elem_of_here.
Qed.

Section results.
Context `{Runtime}.

(** X9. On a column with a unique index (with [allow_empty = false]),
    [get_errors] returns exactly one warning for each row whose mask entry
    is false, in row order, carrying the message of the rule, the cell and
    the label of the row and the name of the column. *)
Theorem get_errors_unique_index (self : SeriesValidation) (series : Series)
    (m : mask) (msg : scalar) :
  NoDup (index series) →
  validate self series = OK m →
  length m = length (rows series) →
  message self = OK msg →
  get_errors self series (mkColumn false)
  = OK ((λ r, ValidationWarning.mk msg (Item r.2) r.1 (name series))
        <$> (filter (λ p, p.2 = false) (zip (rows series) m)).*1).
Proof.
  intros Hnd Hm Hlen Hmsg. unfold get_errors. rewrite Hm. simpl.
  unfold index_getitem.
  rewrite decide_True by (by rewrite length_index, length_mask_not).
  simpl. unfold index. rewrite failing_rows_labels, mapM_fmap.
  apply mapM_OK_fmap. intros [k v] Hin. simpl.
  rewrite (getitem_NoDup series k v Hnd), Hmsg; [reflexivity|].
  apply list_elem_of_fmap in Hin as ([r b] & -> & Hin).
  apply list_elem_of_filter in Hin as [_ Hin]. simpl.
  by apply elem_of_zip_l in Hin.
Qed.

(** The message of a rule is read only when a warning is built. *)
Lemma get_errors_message_Err (self : SeriesValidation) (series : Series)
    (m : mask) (e : exn) :
  validate self series = OK m →
  length m = length (rows series) →
  message self = Err e →
  ((∀ b, b ∈ m → b = true) → get_errors self series (mkColumn false) = OK []) ∧
  (false ∈ m → get_errors self series (mkColumn false) = Err e).
Proof.
  intros Hm Hlen Hmsg. split.
  - intros Hall. unfold get_errors. rewrite Hm. simpl.
    unfold index_getitem.
    rewrite decide_True by (by rewrite length_index, length_mask_not).
    simpl. rewrite filter_true_nil; [reflexivity|].
    intros b [p Hp]%list_elem_of_lookup. destruct b; [|reflexivity].
    rewrite lookup_mask_not in Hp.
    destruct (m !! p) as [[]|] eqn:Hmp; simplify_eq/=.
    assert (false ∈ m) as Hin by (apply list_elem_of_lookup; eauto).
    by apply Hall in Hin.
  - intros [p Hp]%list_elem_of_lookup. unfold get_errors. rewrite Hm. simpl.
    unfold index_getitem.
    rewrite decide_True by (by rewrite length_index, length_mask_not).
    simpl.
    destruct (lookup_lt_is_Some_2 (rows series) p) as [[k v] Hrow].
    { rewrite <- Hlen. by eapply lookup_lt_Some. }
    apply mapM_all_Err.
    + intros Hnil.
      assert ((k, true) ∈ filter (λ q : scalar * bool, q.2 = true)
                (zip (index series) (mask_not m))) as Hin.
      { apply list_elem_of_filter. split; [done|]. apply list_elem_of_lookup.
        exists p. apply lookup_zip_Some.
        by rewrite lookup_index, Hrow, lookup_mask_not, Hp. }
      apply (list_elem_of_fmap_2 fst) in Hin. rewrite Hnil in Hin.
      by apply elem_of_nil in Hin.
    + intros k' ([k'' b] & -> & [_ Hin]%list_elem_of_filter)%list_elem_of_fmap.
      apply elem_of_zip_l in Hin. unfold index in Hin.
      apply list_elem_of_fmap in Hin as ([k3 v3] & -> & Hin). simpl.
      destruct (getitem_OK series k3 v3 Hin) as [it ->]. simpl.
      by rewrite Hmsg.
Qed.

(** X10. A [CustomSeriesValidation] whose message is empty (or otherwise
    falsy) has no message at all: reading it raises [AttributeError],
    because its [default_message] reads an attribute the class does not
    have.  With [allow_empty = false], [get_errors] still returns the empty
    list when every row passes, and raises [AttributeError] as soon as one
    row fails. *)
Theorem custom_series_needs_a_message (f : Series → result mask)
    (custom : scalar) (series : Series) (m : mask) :
  truthy custom = false →
  f series = OK m →
  length m = length (rows series) →
  message (CustomSeries f custom) = Err AttributeError ∧
  ((∀ b, b ∈ m → b = true) →
   get_errors (CustomSeries f custom) series (mkColumn false) = OK []) ∧
  (false ∈ m →
   get_errors (CustomSeries f custom) series (mkColumn false)
   = Err AttributeError).
Proof.
  intros Hfalsy Hm Hlen.
  assert (message (CustomSeries f custom) = Err AttributeError) as Hmsg.
  { unfold message, py_or. simpl. by rewrite Hfalsy. }
  split; [exact Hmsg|].
  by apply get_errors_message_Err.
Qed.


(** X12. [DateFormatValidation.validate] never raises: every cell is
    turned into text and passes exactly when [strptime] accepts that text,
    whatever exception [strptime] raises otherwise; with
    [allow_empty = false], [get_errors] always returns a list of warnings. *)
Theorem date_format_never_raises (date_format : string) (custom : scalar)
    (series : Series) :
  validate (DateFormat date_format custom) series
  = OK ((λ v, is_ok (strptime (py_str v) date_format)) <$> values series) ∧
  ∃ ws, get_errors (DateFormat date_format custom) series (mkColumn false)
        = OK ws.
Proof.
  assert (validate (DateFormat date_format custom) series
          = OK ((λ v, is_ok (strptime (py_str v) date_format)) <$> values series))
    as Hval.
  { simpl. unfold astype_unicode. rewrite mapM_fmap. apply mapM_OK_fmap.
    intros v _. unfold valid_date. simpl.
    by destruct (strptime (py_str v) date_format). }
  split; [exact Hval|].
  assert (∃ msg, message (DateFormat date_format custom) = OK msg) as [msg Hmsg].
  { unfold message, py_or. simpl. destruct (truthy custom); eauto. }
  eapply get_errors_total; [exact Hval| |exact Hmsg].
  by rewrite length_fmap, length_values.
Qed.

End results.

(** ** Membership, ranges and construction *)

Section library.
Context `{Runtime}.

(** X13. [InListValidation] without case sensitivity cannot be evaluated:
    it reads [series.unicode], which no Series has, so [validate] and
    [get_errors] raise [AttributeError] on every column, whatever the
    options.  The case-sensitive rule returns a mask, in which a row passes
    exactly when its cell is one of the options. *)
Theorem in_list_case_insensitive (options : list scalar) (custom : scalar)
    (series : Series) (column : Column) :
  validate (InList options false custom) series = Err AttributeError ∧
  get_errors (InList options false custom) series column = Err AttributeError ∧
  ∃ m, validate (InList options true custom) series = OK m ∧
       length m = length (rows series) ∧
       ∀ p v, values series !! p = Some v →
              (m !! p = Some true ↔ v ∈ options).
Proof.
  split; [reflexivity|]. split; [reflexivity|].
  eexists. split; [reflexivity|]. split.
  { unfold isin. by rewrite length_fmap, length_values. }
  intros p v Hv. unfold isin. rewrite list_lookup_fmap, Hv. simpl.
  split.
  - intros [= Hin]. by apply bool_decide_eq_true in Hin.
  - intros Hin. f_equal. by apply bool_decide_eq_true.
Qed.

(** X14. A range whose [max] is not above its [min] accepts nothing: on
    every column that can be coerced, every row fails, whatever its number. *)
Theorem in_range_empty_range (lo hi : Z) (custom : scalar) (series : Series)
    (numeric : list number) :
  (hi ≤ lo)%Z →
  to_numeric series = OK numeric →
  ∃ m, validate (InRange (Num lo) (Num hi) custom) series = OK m ∧
       length m = length (rows series) ∧
       ∀ b, b ∈ m → b = false.
Proof.
  intros Hle Hnum. eexists. split; [by apply validate_InRange|]. split.
  { unfold ge, lt. rewrite length_zip_with_l_eq by (by rewrite !length_fmap).
    rewrite length_fmap. unfold to_numeric in Hnum.
    apply mapM_OK_length in Hnum. by rewrite Hnum, length_values. }
  intros b [p Hp]%list_elem_of_lookup.
  apply lookup_zip_with_Some in Hp as (x & y & -> & Hx & Hy).
  unfold ge, lt in Hx, Hy. rewrite list_lookup_fmap in Hx, Hy.
  destruct (numeric !! p) as [n|]; simplify_eq/=.
  destruct n as [|z| |]; simpl; try reflexivity.
  apply andb_false_iff.
  destruct (decide (lo ≤ z)%Z).
  - right. apply bool_decide_eq_false. lia.
  - left. by apply bool_decide_eq_false.
Qed.

(** X5. The range rule sees text and missing cells through
    [pd.to_numeric]: a column that can be coerced validates exactly like
    the column of the numbers it is coerced to, so a text cell passes or
    fails like the number it stands for and a [None] cell like [nan]. *)
Theorem in_range_validates_coerced_cells (min max : number) (custom : scalar)
    (series : Series) (numeric : list number) :
  to_numeric series = OK numeric →
  validate (InRange min max custom) series
  = validate (InRange min max custom)
      (mkSeries (name series) (zip (index series) (PyNum <$> numeric))).
Proof.
  intros Hnum. rewrite (validate_InRange _ _ _ _ numeric Hnum).
  symmetry. apply validate_InRange. unfold to_numeric, values. simpl.
  rewrite snd_zip.
  - rewrite mapM_fmap. rewrite <- (list_fmap_id numeric) at 2.
    by apply mapM_OK_fmap.
  - unfold to_numeric in Hnum. apply mapM_OK_length in Hnum.
    by rewrite length_fmap, Hnum, length_values, length_index.
Qed.

End library.

(** X15. [CanConvertValidation] does check its argument when it is
    constructed: an argument that is not a class raises
    [PanSchArgumentError] with the text of the argument, and a class is
    stored as the callable of the rule, so every rule it constructs holds a
    callable. *)
Theorem CanConvertValidation_checks_its_type (_type : pyobj) (custom : scalar) :
  (isinstance_type _type = false →
   CanConvertValidation _type custom
   = Err (PanSchArgumentError (obj_str _type +:+ " is not a valid type"))) ∧
  (isinstance_type _type = true →
   CanConvertValidation _type custom = OK (CanConvert _type custom)) ∧
  (∀ rule, CanConvertValidation _type custom = OK rule →
           ∃ func, rule = CanConvert func custom ∧ callable func = true).
Proof.
  unfold CanConvertValidation.
  destruct _type as [v|text body|text new]; simpl; repeat split; try done.
  intros rule [= <-]. eauto.
Qed.

(** ** Printing *)

Section display.
Context `{Runtime}.
Variable series_str : Series → string.

(** X16. How the warnings of [get_errors] print.  A warning whose message
    is the text [s] prints as [s] alone, without row, column or value,
    when the column has no name, or the label of its row is [None], or its
    cell is [None]; otherwise it prints as
    [{row: <label>, column: "<name>"}: "<value>" s]. *)
Theorem printed_warnings (self : SeriesValidation) (series : Series)
    (column : Column) (ws : list ValidationWarning.t) (w : ValidationWarning.t)
    (s : string) :
  get_errors self series column = OK ws →
  w ∈ ws →
  ValidationWarning.message w = PyStr s →
  (name series = PyNone ∨ ValidationWarning.row w = PyNone
   ∨ ValidationWarning.value w = Item PyNone →
   __str__ series_str w = OK s) ∧
  (name series ≠ PyNone → ValidationWarning.row w ≠ PyNone →
   ValidationWarning.value w ≠ Item PyNone →
   __str__ series_str w
   = OK ("{row: " +:+ py_str (ValidationWarning.row w) +:+ ", column: "
         +:+ dquote +:+ py_str (name series) +:+ dquote +:+ "}: " +:+ dquote
         +:+ item_str series_str (ValidationWarning.value w) +:+ dquote
         +:+ " " +:+ s)).
Proof.
  intros (_ & m & labels & _ & _ & _ & Hws)%get_errors_inv
         [i Hi]%list_elem_of_lookup Hmsg.
  destruct (Forall2_lookup_r _ _ _ _ _ Hws Hi) as (k & _ & _ & _ & _ & Hcol).
  unfold __str__. rewrite Hcol, Hmsg. split.
  - intros [-> | [-> | ->]]; simpl; rewrite ?andb_false_r; reflexivity.
  - intros Hname Hrow Hvalue.
    assert (is_not_None (ValidationWarning.row w) = true) as ->
      by (by destruct (ValidationWarning.row w)).
    assert (is_not_None (name series) = true) as ->
      by (by destruct (name series)).
    assert (item_is_not_None (ValidationWarning.value w) = true) as ->
      by (by destruct (ValidationWarning.value w) as [[]|]).
    reflexivity.
Qed.

End display.

Section dtype_rule.
Context `{Numpy}.
Variable series_str : Series → string.

(** X17. [IsDtypeValidation.get_errors] looks at the dtype of the column
    only: it returns the empty list exactly when the dtype is a subtype of
    the required one and a single warning otherwise, whatever the column
    policy passed to it; the warning has no row, column or value, so it
    prints as its message alone. *)
Theorem is_dtype_get_errors (self : IsDtypeValidation) (series : TypedSeries)
    (column : option Column) :
  length (IsDtypeValidation_get_errors self series column) ≤ 1 ∧
  IsDtypeValidation_get_errors self series column
  = IsDtypeValidation_get_errors self series None ∧
  (IsDtypeValidation_get_errors self series column = [] ↔
   match self with IsDtype required => issubdtype (dtype series) required end
   = true) ∧
  ∀ w, w ∈ IsDtypeValidation_get_errors self series column →
       ∃ s, ValidationWarning.message w = PyStr s ∧
            __str__ series_str w = OK s.
Proof.
  destruct self as [required]. simpl.
  destruct (issubdtype (dtype series) required); simpl.
  - repeat split; try done; try lia. by intros w ?%elem_of_nil.
  - repeat split; try done; try lia.
    intros w ->%list_elem_of_singleton. eauto.
Qed.

End dtype_rule.

(** ** Where exceptions come from *)

Lemma join_not_text (sep : string) (items : list scalar) (o : scalar) :
  o ∈ items → (∀ s, o ≠ PyStr s) → join sep items = Err TypeError.
Proof.
  intros Hin Ho. induction items as [|x items IH]; [by apply elem_of_nil in Hin|].
  apply elem_of_cons in Hin as [<-|Hin].
  - destruct o as [| |s]; [by destruct items..|]. by destruct (Ho s).
  - specialize (IH Hin). destruct x as [| |s]; [by destruct items..|].
    simpl. rewrite IH. simpl. destruct items; [|reflexivity].
    by apply elem_of_nil in Hin.
Qed.

Section exceptions.
Context `{Runtime}.

(** X18. With [allow_empty = false], when the message of a rule can be
    read and the whole-series functions inside it return one boolean per
    row, [get_errors] raises exactly what [validate] raises: it returns a
    list of warnings whenever [validate] returns a mask, and passes on the
    exception of [validate] otherwise. *)
Theorem get_errors_raises_what_validate_raises (self : SeriesValidation)
    (series : Series) (msg : scalar) :
  series_functions_aligned self series →
  message self = OK msg →
  is_ok (get_errors self series (mkColumn false))
  = is_ok (validate self series) ∧
  ∀ e, get_errors self series (mkColumn false) = Err e ↔
       validate self series = Err e.
Proof.
  intros Haligned Hmsg.
  destruct (validate self series) as [m|e0] eqn:Hm.
  - destruct (get_errors_total self series m msg Hm) as [ws Hws];
      [by eapply validate_length|done|].
    rewrite Hws. split; [reflexivity|]. intros e. split; discriminate.
  - assert (get_errors self series (mkColumn false) = Err e0) as ->
      by (unfold get_errors; by rewrite Hm).
    split; [reflexivity|]. intros e. split; intros [= ->]; reflexivity.
Qed.

(** X19. The default message of [InListValidation] joins the options as
    text, so with an option that is not text (a number, say) and no custom
    message the message cannot be read: it raises [TypeError].  With
    [allow_empty = false], [get_errors] then returns the empty list when
    every cell is among the options and raises [TypeError] as soon as one is
    not. *)
Theorem in_list_options_must_be_text (options : list scalar) (custom : scalar)
    (series : Series) (o : scalar) :
  o ∈ options →
  (∀ s, o ≠ PyStr s) →
  truthy custom = false →
  message (InList options true custom) = Err TypeError ∧
  ((∀ v, v ∈ values series → v ∈ options) →
   get_errors (InList options true custom) series (mkColumn false) = OK []) ∧
  (∀ v, v ∈ values series → v ∉ options →
        get_errors (InList options true custom) series (mkColumn false)
        = Err TypeError).
Proof.
  intros Hin Ho Hfalsy.
  assert (message (InList options true custom) = Err TypeError) as Hmsg.
  { unfold message, py_or. simpl. rewrite Hfalsy.
    by rewrite (join_not_text ", " options o). }
  split; [exact Hmsg|].
  destruct (get_errors_message_Err (InList options true custom) series
              (isin (values series) options) TypeError eq_refl) as [Hpass Hfail];
    [unfold isin; by rewrite length_fmap, length_values | exact Hmsg |].
  split.
  - intros Hall. apply Hpass. intros b Hb. unfold isin in Hb.
    apply list_elem_of_fmap in Hb as (v & -> & Hv).
    apply bool_decide_eq_true. by apply Hall.
  - intros v Hv Hnot. apply Hfail. unfold isin.
    apply list_elem_of_fmap. exists v. split; [|exact Hv].
    symmetry. by apply bool_decide_eq_false.
Qed.

End exceptions.

(** ** The further properties at concrete inputs *)



Lemma warnings_follow_the_index_witness :
  ∃ ws, @get_errors integer_runtime zero_to_ten numbers (mkColumn false) = OK ws ∧
        ValidationWarning.row <$> ws `sublist_of` index numbers ∧
        length ws ≤ length (rows numbers).
Proof.
  eexists. split; [reflexivity|].
  destruct (@warnings_follow_the_index integer_runtime zero_to_ten numbers
              (mkColumn false) _ eq_refl) as (Hsub & Hlen & _).
  split; [exact Hsub | exact Hlen].
Defined.

Lemma negation_partitions_rows_witness :
  ∃ ws ws',
    @get_errors integer_runtime zero_to_ten numbers (mkColumn false) = OK ws ∧
    @get_errors integer_runtime (__invert__ zero_to_ten) numbers (mkColumn false)
    = OK ws' ∧
    length ws + length ws' = length (rows numbers) ∧
    (∀ k, k ∈ ValidationWarning.row <$> ws → k ∉ ValidationWarning.row <$> ws').
Proof.
  eexists _, _. split; [reflexivity|]. split; [reflexivity|].
  destruct (@negation_partitions_rows integer_runtime zero_to_ten numbers
              _ _ eq_refl eq_refl) as (Hlen & _ & Hdisjoint).
  split; [exact Hlen|]. apply Hdisjoint.
  refine (bool_decide_unpack _ _). vm_compute. exact I.
Defined.

Lemma disjunction_removes_conjunction_adds_witness :
  (∃ w_or, @get_errors integer_runtime (__or__ zero_to_ten (InList [PyNum (Num 15)] true (PyStr "go"))) numbers
             (mkColumn false) = OK w_or ∧
           ValidationWarning.row <$> w_or = [PyNum (Num 2)] ∧
           ValidationWarning.row <$> w_or `sublist_of` [PyNum (Num 1); PyNum (Num 2)]) ∧
  (∃ w_and, @get_errors integer_runtime (__and__ zero_to_ten (InList [PyNum (Num 15)] true (PyStr "go"))) numbers
              (mkColumn false) = OK w_and ∧
            length w_and = 3 ∧
            [PyNum (Num 1); PyNum (Num 2)] `sublist_of` ValidationWarning.row <$> w_and).
Proof.
  destruct (@disjunction_removes_conjunction_adds integer_runtime zero_to_ten
              (InList [PyNum (Num 15)] true (PyStr "go")) numbers
              [ValidationWarning.mk (PyStr "was not in the range [0, 10)")
                 (Item (PyNum (Num 15))) (PyNum (Num 1)) (PyStr "n");
               ValidationWarning.mk (PyStr "was not in the range [0, 10)")
                 (Item (PyNum (Num (-3)))) (PyNum (Num 2)) (PyStr "n")]
              [ValidationWarning.mk (PyStr "go")
                 (Item (PyNum (Num 5))) (PyNum (Num 0)) (PyStr "n");
               ValidationWarning.mk (PyStr "go")
                 (Item (PyNum (Num (-3)))) (PyNum (Num 2)) (PyStr "n")]
              eq_refl eq_refl) as [Hor Hand].
  split.
  - eexists. split; [reflexivity|]. split; [reflexivity|].
    exact (proj1 (Hor _ eq_refl)).
  - eexists. split; [reflexivity|]. split; [reflexivity|].
    exact (proj1 (Hand _ eq_refl)).
Defined.

Lemma get_errors_unique_index_witness :
  @get_errors integer_runtime zero_to_ten numbers (mkColumn false)
  = OK ((λ r, ValidationWarning.mk (PyStr "was not in the range [0, 10)")
                (Item r.2) r.1 (name numbers))
        <$> (filter (λ p, p.2 = false)
               (zip (rows numbers) [true; false; false])).*1).
Proof.
  apply (@get_errors_unique_index integer_runtime zero_to_ten numbers
           [true; false; false] (PyStr "was not in the range [0, 10)"));
    try reflexivity.
  refine (bool_decide_unpack _ _). vm_compute. exact I.
Defined.

Lemma custom_series_needs_a_message_witness :
  message not_empty = Err AttributeError ∧
  @get_errors integer_runtime not_empty one_letter (mkColumn false) = OK [] ∧
  @get_errors integer_runtime not_empty letters (mkColumn false)
  = Err AttributeError.
Proof.
  split; [|split].
  - exact (proj1 (@custom_series_needs_a_message integer_runtime has_content (PyStr "")
                    letters [true; false; true] eq_refl eq_refl eq_refl)).
  - destruct (@custom_series_needs_a_message integer_runtime has_content (PyStr "")
                one_letter [true] eq_refl eq_refl eq_refl) as (_ & Hpass & _).
    apply Hpass. intros b ->%list_elem_of_singleton. reflexivity.
  - destruct (@custom_series_needs_a_message integer_runtime has_content (PyStr "")
                letters [true; false; true] eq_refl eq_refl eq_refl)
      as (_ & _ & Hfail).
    apply Hfail. refine (bool_decide_unpack _ _). vm_compute. exact I.
Defined.


Lemma in_list_case_insensitive_witness :
  @validate integer_runtime (InList [PyStr "A"; PyStr "b"] false PyNone) letters
  = Err AttributeError ∧
  ∃ m, @validate integer_runtime (InList [PyStr "A"; PyStr "b"] true PyNone) letters
       = OK m ∧
       (m !! 2%nat = Some true ↔ PyStr "b" ∈ [PyStr "A"; PyStr "b"]).
Proof.
  destruct (@in_list_case_insensitive integer_runtime [PyStr "A"; PyStr "b"]
              PyNone letters (mkColumn false)) as (Hraises & _ & m & Hm & _ & Hrows).
  split; [exact Hraises|].
  exists m. split; [exact Hm|].
  exact (Hrows 2%nat (PyStr "b") eq_refl).
Defined.

Lemma in_range_empty_range_witness :
  ∃ m, @validate integer_runtime (InRange (Num 10) (Num 0) PyNone) numbers = OK m ∧
       length m = length (rows numbers) ∧
       ∀ b, b ∈ m → b = false.
Proof.
  apply (@in_range_empty_range integer_runtime 10 0 PyNone numbers
           [Num 5; Num 15; Num (-3)]); [lia|reflexivity].
Defined.

Lemma CanConvertValidation_checks_its_type_witness :
  CanConvertValidation (Data (PyNum (Num 5))) PyNone
  = Err (PanSchArgumentError "5 is not a valid type") ∧
  CanConvertValidation int_class PyNone = OK (CanConvert int_class PyNone) ∧
  ∃ func, CanConvert int_class PyNone = CanConvert func PyNone ∧
          callable func = true.
Proof.
  split; [|split].
  - destruct (CanConvertValidation_checks_its_type (Data (PyNum (Num 5))) PyNone)
      as (Hbad & _ & _).
    exact (Hbad eq_refl).
  - destruct (CanConvertValidation_checks_its_type int_class PyNone)
      as (_ & Hgood & _).
    exact (Hgood eq_refl).
  - destruct (CanConvertValidation_checks_its_type int_class PyNone)
      as (_ & _ & Hcallable).
    exact (Hcallable _ eq_refl).
Defined.

Lemma printed_warnings_witness :
  __str__ show_series
    (ValidationWarning.mk (PyStr "was not in the range [0, 10)")
       (Item (PyNum (Num 15))) (PyNum (Num 1)) (PyStr "n"))
  = OK (String.append "{row: 1, column: "
          (dquote +:+ "n" +:+ dquote +:+ "}: " +:+ dquote +:+ "15" +:+ dquote
           +:+ " was not in the range [0, 10)")) ∧
  __str__ show_series
    (ValidationWarning.mk (PyStr "was not in the range [0, 10)")
       (Item (PyNum (Num 15))) (PyNum (Num 1)) PyNone)
  = OK "was not in the range [0, 10)".
Proof.
  split.
  - destruct (@printed_warnings integer_runtime show_series zero_to_ten numbers
                (mkColumn false)
                [ValidationWarning.mk (PyStr "was not in the range [0, 10)")
                   (Item (PyNum (Num 15))) (PyNum (Num 1)) (PyStr "n");
                 ValidationWarning.mk (PyStr "was not in the range [0, 10)")
                   (Item (PyNum (Num (-3)))) (PyNum (Num 2)) (PyStr "n")]
                (ValidationWarning.mk (PyStr "was not in the range [0, 10)")
                   (Item (PyNum (Num 15))) (PyNum (Num 1)) (PyStr "n"))
                "was not in the range [0, 10)"
                eq_refl (list_elem_of_here _ _) eq_refl) as [_ Hfull].
    apply Hfull; discriminate.
  - destruct (@printed_warnings integer_runtime show_series zero_to_ten unnamed
                (mkColumn false)
                [ValidationWarning.mk (PyStr "was not in the range [0, 10)")
                   (Item (PyNum (Num 15))) (PyNum (Num 1)) PyNone;
                 ValidationWarning.mk (PyStr "was not in the range [0, 10)")
                   (Item (PyNum (Num (-3)))) (PyNum (Num 2)) PyNone]
                (ValidationWarning.mk (PyStr "was not in the range [0, 10)")
                   (Item (PyNum (Num 15))) (PyNum (Num 1)) PyNone)
                "was not in the range [0, 10)"
                eq_refl (list_elem_of_here _ _) eq_refl) as [Hbare _].
    apply Hbare. by left.
Defined.

Lemma is_dtype_get_errors_witness :
  ∃ s, __str__ show_series
         (ValidationWarning.mk
            (PyStr "The column has a dtype of object which is not a subclass of the required type int64")
            (Item PyNone) PyNone PyNone)
       = OK s.
Proof.
  destruct (@is_dtype_get_errors named_dtypes show_series
              (@IsDtype named_dtypes "int64")
              (@mkTypedSeries named_dtypes letters "object") None)
    as (_ & _ & _ & Hprint).
  destruct (Hprint (ValidationWarning.mk
            (PyStr "The column has a dtype of object which is not a subclass of the required type int64")
            (Item PyNone) PyNone PyNone)) as (s & _ & Hs).
  - apply list_elem_of_singleton. reflexivity.
  - exists s. exact Hs.
Defined.

Lemma get_errors_raises_what_validate_raises_witness :
  is_ok (@get_errors integer_runtime zero_to_ten with_text (mkColumn false))
  = is_ok (@validate integer_runtime zero_to_ten with_text) ∧
  ∀ e, @get_errors integer_runtime zero_to_ten with_text (mkColumn false) = Err e ↔
       @validate integer_runtime zero_to_ten with_text = Err e.
Proof.
  exact (@get_errors_raises_what_validate_raises integer_runtime zero_to_ten
           with_text (PyStr "was not in the range [0, 10)") I eq_refl).
Defined.

Lemma in_list_options_must_be_text_witness :
  message is_15 = Err TypeError ∧
  @get_errors integer_runtime is_15 numbers (mkColumn false) = Err TypeError.
Proof.
  destruct (@in_list_options_must_be_text integer_runtime [PyNum (Num 15)] PyNone
              numbers (PyNum (Num 15))) as (Hmsg & _ & Hfail).
  - apply list_elem_of_here.
  - discriminate.
  - reflexivity.
  - split; [exact Hmsg|]. apply (Hfail (PyNum (Num 5))).
    + apply list_elem_of_here.
    + intros Hin. apply list_elem_of_singleton in Hin. discriminate.
Defined.

Lemma in_range_validates_coerced_cells_witness :
  @validate integer_runtime zero_to_ten
    (pd_Series [PyStr "5"; PyNone; PyStr "-3"] (PyStr "n"))
  = @validate integer_runtime zero_to_ten
      (pd_Series [PyNum (Num 5); PyNum NaN; PyNum (Num (-3))] (PyStr "n")).
Proof.
  exact (@in_range_validates_coerced_cells integer_runtime (Num 0) (Num 10)
           PyNone (pd_Series [PyStr "5"; PyNone; PyStr "-3"] (PyStr "n"))
           [Num 5; NaN; Num (-3)] eq_refl).
Defined.
